(** * plasma_predictor.frontend.streamlit_app

    A shallow embedding of [src/plasma_predictor/frontend/streamlit_app.py]:
    the label loader [load_wavelengths], the model lister
    [get_available_models] and the module body (form and predict handler).

    The script talks to the outside through pandas ([pd.read_csv]),
    requests ([requests.get], [requests.post]) and Streamlit ([st.*]).
    What those calls answer is an input (the record [world]); what the script
    does to them is recorded in a trace of [event]s.  Python values are the
    tagged union [value]; exceptions are results [Raise e] threaded by the
    monad [M], together with the one module-level name the script may leave
    unbound ([response]). *)

From Stdlib Require Import ZArith List String Ascii Bool Lia.
From Stdlib Require Import Floats.SpecFloat DecimalString.
From ExtLib Require Import Structures.Monad.
Import ListNotations.
Import MonadNotation.

Open Scope string_scope.
Open Scope Z_scope.
Open Scope monad_scope.

(** ** Python values *)

Module Py.

(** A Python [float] is an IEEE 754 binary64 value. *)
Definition pyfloat : Type := spec_float.

Definition prec : Z := 53.
Definition emax : Z := 1024.

(** [0.0], [1.0] *)
Definition zero : pyfloat := S754_zero false.
Definition one : pyfloat := S754_finite false 4503599627370496 (-52).

(** The objects the script handles: cells of a data frame, decoded JSON,
    labels, model names. *)
#[local] Set Warnings "-register-all".
Inductive value : Type :=
| VNone
| VBool (b : bool)
| VInt (n : Z)
| VFloat (x : pyfloat)
| VStr (s : string)
| VList (xs : list value)
| VDict (kvs : list (string * value)).

Inductive exn_class : Type :=
| FileNotFoundError
| OSError
| ValueError
| TypeError
| KeyError
| IndexError
| AttributeError
| NameError
| OverflowError
| EmptyDataError          (* pandas.errors, a ValueError *)
| JSONDecodeError         (* json, a ValueError *)
| RequestException        (* requests.exceptions *)
| ConnectionError
| Timeout
| HTTPError
| RequestsJSONDecodeError (* requests.exceptions, also a json.JSONDecodeError *)
| OtherException.

(** An exception object: its class and [str(e)]. *)
Record exn : Type := mk_exn { exn_cls : exn_class; exn_str : string }.

Definition exn_class_eqb (a b : exn_class) : bool :=
  match a, b with
  | FileNotFoundError, FileNotFoundError | OSError, OSError
  | ValueError, ValueError | TypeError, TypeError | KeyError, KeyError
  | IndexError, IndexError | AttributeError, AttributeError
  | NameError, NameError | OverflowError, OverflowError
  | EmptyDataError, EmptyDataError | JSONDecodeError, JSONDecodeError
  | RequestException, RequestException | ConnectionError, ConnectionError
  | Timeout, Timeout | HTTPError, HTTPError
  | RequestsJSONDecodeError, RequestsJSONDecodeError
  | OtherException, OtherException => true
  | _, _ => false
  end.

(** [subclass c d]: class [c] is [d] or derives from it. *)
Definition subclass (c d : exn_class) : bool :=
  exn_class_eqb c d ||
  match c, d with
  | FileNotFoundError, OSError => true
  | (EmptyDataError | JSONDecodeError | RequestsJSONDecodeError), ValueError => true
  | RequestsJSONDecodeError, JSONDecodeError => true
  | (ConnectionError | Timeout | HTTPError | RequestsJSONDecodeError),
    RequestException => true
  | (ConnectionError | Timeout | HTTPError | RequestsJSONDecodeError
     | RequestException), OSError => true
  | _, _ => false
  end.

(** [isinstance(e, d)] *)
Definition isinstance (e : exn) (d : exn_class) : bool := subclass (exn_cls e) d.

Inductive result (A : Type) : Type :=
| Ok (a : A)
| Raise (e : exn).
Arguments Ok {A} a.
Arguments Raise {A} e.

(** The built-in operations that reject an operand with a ValueError or a
    TypeError; each words its message in its own way. *)
Inductive builtin : Type :=
| Float                     (* float(v) *)
| Format (spec : string)    (* format(v, spec), the f-string field {v:spec} *)
| Subscript                 (* v[key] *)
| Iterate.                  (* for m in v *)

(** The parts of the interpreter that are used as they come: reading a
    float from text, printing a float or a container, and the wording of the
    messages of built-in errors. *)
Class Interp : Type := {
  float_of_string : string -> option pyfloat;  (* float(s), None: ValueError *)
  float_repr : pyfloat -> string;              (* str(x) of a float *)
  container_repr : value -> string;            (* str(v) of a list or dict *)
  error_text : exn_class -> value -> string;
    (* str(e) of an error told by its class and operand: the KeyError of a
       key, the NameError of a name, IndexError, OverflowError, the
       AttributeError of [get] *)
  rejection_text : builtin -> value -> string
    (* str(e) of the ValueError or TypeError with which a built-in rejects
       an operand *)
}.

Definition dec_nat (n : nat) : string := NilZero.string_of_uint (Nat.to_uint n).
Definition dec_Z (n : Z) : string := NilZero.string_of_int (Z.to_int n).

(** [d[key]] lookup in a dict: the entry of [key], if any. *)
Fixpoint dict_lookup (key : string) (kvs : list (string * value)) : option value :=
  match kvs with
  | [] => None
  | (k, v) :: rest => if String.eqb k key then Some v else dict_lookup key rest
  end.

(** [float(n)] of an int: the nearest binary64, OverflowError when there is none. *)
Definition float_of_int (n : Z) : option pyfloat :=
  match binary_normalize prec emax n 0 false with
  | S754_infinity _ => None
  | x => Some x
  end.

Section Builtins.
Context `{py : Interp}.

Definition interp_error {A : Type} (c : exn_class) (operand : value) : result A :=
  Raise (mk_exn c (error_text c operand)).

Definition rejected {A : Type} (c : exn_class) (by_ : builtin) (operand : value)
    : result A :=
  Raise (mk_exn c (rejection_text by_ operand)).

(** [float(v)] *)
Definition py_float (v : value) : result pyfloat :=
  match v with
  | VFloat x => Ok x
  | VInt n =>
      match float_of_int n with
      | Some x => Ok x
      | None => interp_error OverflowError v
      end
  | VBool b => Ok (if b then one else zero)
  | VStr s =>
      match float_of_string s with
      | Some x => Ok x
      | None => rejected ValueError Float v
      end
  | VNone | VList _ | VDict _ => rejected TypeError Float v
  end.

(** [str(v)], what an f-string field [{v}] prints. *)
Definition py_str (v : value) : string :=
  match v with
  | VNone => "None"
  | VBool true => "True"
  | VBool false => "False"
  | VInt n => dec_Z n
  | VFloat x => float_repr x
  | VStr s => s
  | VList _ | VDict _ => container_repr v
  end.

(** [v[key]] with a string key. *)
Definition py_getitem (v : value) (key : string) : result value :=
  match v with
  | VDict kvs =>
      match dict_lookup key kvs with
      | Some x => Ok x
      | None => interp_error KeyError (VStr key)
      end
  | _ => rejected TypeError Subscript v
  end.

(** [v.get(key, default)] *)
Definition py_get (v : value) (key : string) (default : value) : result value :=
  match v with
  | VDict kvs =>
      match dict_lookup key kvs with
      | Some x => Ok x
      | None => Ok default
      end
  | _ => interp_error AttributeError v
  end.

(** [for m in v]: the elements iterated over.  A dict yields its keys, a
    string its characters (here one per byte; each is a string either way). *)
Definition py_iter (v : value) : result (list value) :=
  match v with
  | VList xs => Ok xs
  | VDict kvs => Ok (map (fun kv => VStr (fst kv)) kvs)
  | VStr s => Ok (map (fun c => VStr (String c "")) (list_ascii_of_string s))
  | VNone | VBool _ | VInt _ | VFloat _ => rejected TypeError Iterate v
  end.

End Builtins.

(** *** The format spec [.4f] *)

(** [num / den] rounded to the nearest integer, ties to even ([den > 0]). *)
Definition round_half_even (num den : Z) : Z :=
  let q := num / den in
  let r := num mod den in
  if 2 * r <? den then q
  else if den <? 2 * r then q + 1
  else if Z.even q then q else q + 1.

(** [m * 2^e * 10^4] rounded to an integer. *)
Definition scaled4 (m : positive) (e : Z) : Z :=
  if 0 <=? e then Z.pos m * 2 ^ e * 10000
  else round_half_even (Z.pos m * 10000) (2 ^ (- e)).

Definition digit (n : Z) : string := dec_Z (n mod 10).

(** The four digits after the point. *)
Definition frac4 (n : Z) : string :=
  digit (n / 1000) ++ digit (n / 100) ++ digit (n / 10) ++ digit n.

(** [n / 10^4] written with four decimals. *)
Definition fixed4_of_scaled (n : Z) : string :=
  dec_Z (n / 10000) ++ "." ++ frac4 n.

Definition sign_str (s : bool) : string := if s then "-" else "".

(** [format(x, ".4f")] of a float. *)
Definition fixed4 (x : pyfloat) : string :=
  match x with
  | S754_zero s => sign_str s ++ "0.0000"
  | S754_infinity s => sign_str s ++ "inf"
  | S754_nan => "nan"
  | S754_finite s m e => sign_str s ++ fixed4_of_scaled (scaled4 m e)
  end.

(** [format(v, ".4f")], what the f-string field [{v:.4f}] prints. *)
Definition format_4f `{py : Interp} (v : value) : result string :=
  match v with
  | VFloat x => Ok (fixed4 x)
  | VInt n =>
      match float_of_int n with
      | Some x => Ok (fixed4 x)
      | None => interp_error OverflowError v
      end
  | VBool b => Ok (fixed4 (if b then one else zero))
  | VStr _ => rejected ValueError (Format ".4f") v
  | VNone | VList _ | VDict _ => rejected TypeError (Format ".4f") v
  end.

End Py.
Import Py.

(** ** requests *)

Module Requests.

(** A [requests.Response]: the status line, the final URL, and what
    [response.json()] gives for the body. *)
Record Response : Type := mk_Response {
  status_code : Z;
  reason : string;
  url : string;
  json_result : result value
}.

(** What [requests.get] or [requests.post] does: raise, or hand back a response. *)
Inductive outcome : Type :=
| Failed (e : exn)
| Responded (r : Response).

(** [Response.raise_for_status]: an [HTTPError] for 4xx and 5xx. *)
Definition raise_for_status (r : Response) : result unit :=
  if (400 <=? status_code r) && (status_code r <? 500) then
    Raise (mk_exn HTTPError
             (dec_Z (status_code r) ++ " Client Error: " ++ reason r
                ++ " for url: " ++ url r))
  else if (500 <=? status_code r) && (status_code r <? 600) then
    Raise (mk_exn HTTPError
             (dec_Z (status_code r) ++ " Server Error: " ++ reason r
                ++ " for url: " ++ url r))
  else Ok tt.

End Requests.
Import Requests.

(** ** pandas *)

Module Pandas.

(** What [pd.read_csv(filename, delim_whitespace=True, header=None, nrows=1)]
    does: raise, or give a frame of one row.  With [header=None] the first
    line is data, and pandas infers the type of every column by itself: a
    column whose token reads as a number is int64 or float64, any other is
    object and keeps the text.  Taken across columns, the row is an array of
    those Python objects, so a cell is a number where the token reads as one
    and a string where it does not. *)
Inductive read_outcome : Type :=
| ReadFailed (e : exn)
| Frame (row : list value).

(** [df.iloc[0, 1:].values]: the first row without its first column. *)
Definition iloc_0_from_1 (row : list value) : list value := tl row.

(** What a cell of a frame can be: text, a float, a bool, or a 64-bit int
    (which therefore fits a float). *)
Definition is_cell (v : value) : bool :=
  match v with
  | VStr _ | VFloat _ | VBool _ => true
  | VInt n => match float_of_int n with Some _ => true | None => false end
  | VNone | VList _ | VDict _ => false
  end.

End Pandas.
Import Pandas.

(** ** What the script sees and does *)

(** The answers of the outside world during one run of the script. *)
Record world : Type := mk_world {
  project_root : string;                       (* SCRIPT_DIR.parent.parent *)
  read_csv : string -> read_outcome;
  requests_get : string -> outcome;
  requests_post : string -> value -> outcome;
  selectbox_index : nat;                       (* the option the user picked *)
  number_input_state : string -> option pyfloat; (* by widget key; None: untouched *)
  button_clicked : bool
}.

(** The calls the script makes, in order. *)
Inductive event : Type :=
| StSetPageConfig (page_title layout : string)
| StTitle (body : string)
| StSelectbox (label : string) (options : list value)
| StDivider
| StSubheader (body : string)
| StColumns (n : nat)
| StNumberInput (col : nat) (label : string) (value : pyfloat) (format key : string)
| StButton (label : string)
| StInfo (body : string)
| StSuccess (body : string)
| StCaption (body : string)
| StError (body : string)
| StWarning (body : string)
| StSidebarHeader (body : string)
| StSidebarWrite (body : string)
| StSidebarInfo (body : string)
| PdReadCsv (filename : string)
| HttpGet (url : string)
| HttpPost (url : string) (json : value).

(** Module-level names that a run may or may not have bound. *)
Record store : Type := mk_store { response : option Response }.

Definition empty_store : store := {| response := None |}.

(** A piece of the script: from the names bound so far to the calls made,
    the names bound afterwards, and a value or an exception. *)
Definition M (A : Type) : Type := store -> list event * store * result A.

#[export] Instance Monad_M : Monad M := {
  ret := fun _ a st => ([], st, Ok a);
  bind := fun _ _ c k st =>
    match c st with
    | (tr, st', Ok a) =>
        let '(tr', st'', r) := k a st' in ((tr ++ tr')%list, st'', r)
    | (tr, st', Raise e) => (tr, st', Raise e)
    end
}.

Definition emit (ev : event) : M unit := fun st => ([ev], st, Ok tt).

Definition lift {A : Type} (r : result A) : M A := fun st => ([], st, r).

(** [try: body / except ...: handler].  [handler e] is [None] when no
    [except] clause matches [e], which then propagates. *)
Definition try_except {A : Type} (body : M A) (handler : exn -> option (M A)) : M A :=
  fun st =>
    match body st with
    | (tr, st', Ok a) => (tr, st', Ok a)
    | (tr, st', Raise e) =>
        match handler e with
        | Some h => let '(tr', st'', r) := h st' in ((tr ++ tr')%list, st'', r)
        | None => (tr, st', Raise e)
        end
    end.

(** [[f(x) for x in xs]] *)
Fixpoint comprehension {A B : Type} (f : A -> M B) (xs : list A) : M (list B) :=
  match xs with
  | [] => ret []
  | x :: rest =>
      y <- f x ;;
      ys <- comprehension f rest ;;
      ret (y :: ys)
  end.

Definition trace_of {A : Type} (c : M A) (st : store) : list event := fst (fst (c st)).
Definition result_of {A : Type} (c : M A) (st : store) : result A := snd (c st).
Definition store_of {A : Type} (c : M A) (st : store) : store := snd (fst (c st)).

(** The POST requests of a trace, in order. *)
Definition posts (tr : list event) : list (string * value) :=
  flat_map (fun ev => match ev with HttpPost url json => [(url, json)] | _ => [] end) tr.

(** ** The script *)

Section App.
Context `{py : Interp} (w : world).

Definition API_BASE_URL : string := "http://127.0.0.1:8000".

Definition DATA_DIR_NAME : string := "ML_Data".
Definition FILENAME : string := "ML_data_for_learning_N1000.txt".
Definition DATA_FILE_PATH : string :=
  project_root w ++ "/" ++ DATA_DIR_NAME ++ "/" ++ FILENAME.

(** *** Calls into the libraries *)

Definition st_error (body : string) : M unit := emit (StError body).
Definition st_warning (body : string) : M unit := emit (StWarning body).
Definition st_info (body : string) : M unit := emit (StInfo body).
Definition st_success (body : string) : M unit := emit (StSuccess body).
Definition st_caption (body : string) : M unit := emit (StCaption body).

Definition st_selectbox (label : string) (options : list value) : M value :=
  emit (StSelectbox label options) ;;
  ret (nth (selectbox_index w) options VNone).

Definition st_number_input (col : nat) (label : string) (value : pyfloat)
    (format key : string) : M pyfloat :=
  emit (StNumberInput col label value format key) ;;
  ret (match number_input_state w key with Some x => x | None => value end).

Definition st_button (label : string) : M bool :=
  emit (StButton label) ;;
  ret (button_clicked w).

Definition pd_read_csv (filename : string) : M (list value) :=
  emit (PdReadCsv filename) ;;
  match read_csv w filename with
  | ReadFailed e => lift (Raise e)
  | Frame row => ret row
  end.

Definition requests_get_ (url : string) : M Response :=
  emit (HttpGet url) ;;
  match requests_get w url with
  | Failed e => lift (Raise e)
  | Responded r => ret r
  end.

Definition requests_post_ (url : string) (json : value) : M Response :=
  emit (HttpPost url json) ;;
  match requests_post w url json with
  | Failed e => lift (Raise e)
  | Responded r => ret r
  end.

(** [response = ...] at module level, and reading the name back. *)
Definition assign_response (r : Response) : M unit :=
  fun _ => ([], {| response := Some r |}, Ok tt).

Definition load_response : M Response :=
  fun st =>
    match response st with
    | Some r => ([], st, Ok r)
    | None => ([], st, interp_error NameError (VStr "response"))
    end.

(** [xs[i]] on a list *)
Definition list_getitem (xs : list value) (i : nat) : result value :=
  match nth_error xs i with
  | Some x => Ok x
  | None => interp_error IndexError (VList xs)
  end.

(** *** load_wavelengths *)

(** [[f"파장 {i+1}" for i in range(11)]] *)
Definition placeholder_labels : list value :=
  map (fun i => VStr ("파장 " ++ dec_nat (i + 1))) (seq 0 11).

(** The [try] block. *)
Definition load_wavelengths_try (filename : string) : M (option (list value)) :=
  df <- pd_read_csv filename ;;
  let wavelengths_str := iloc_0_from_1 df in
  wavelengths <-
    try_except
      (xs <- comprehension (fun wl => lift (py_float wl)) wavelengths_str ;;
       ret (map VFloat xs))
      (fun e =>
         if isinstance e ValueError then Some (ret wavelengths_str)
         else None) ;;
  if (List.length wavelengths =? 11)%nat then ret (Some wavelengths)
  else
    (st_error "파장 데이터 로딩 오류: 11개 파장이 아닙니다." ;;
     ret None).

(** The body of [load_wavelengths].  The function is decorated with
    [@st.cache_data]: the body runs when the cache has no entry for
    [filename] (the first call of the process, or after the cache is
    cleared); on any later call Streamlit hands back the stored result
    without running it, so without reading the file. *)
Definition load_wavelengths (filename : string) : M (option (list value)) :=
  try_except
    (load_wavelengths_try filename)
    (fun e =>
       if isinstance e FileNotFoundError then
         Some (st_warning ("'" ++ filename ++ "' 파일 찾기 실패. 기본 레이블 사용.") ;;
               ret (Some placeholder_labels))
       else
         Some (st_warning ("파장 로딩 오류: " ++ exn_str e ++ ". 기본 레이블 사용.") ;;
               ret (Some placeholder_labels))).

(** *** get_available_models *)

(** The [try] block. *)
Definition get_available_models_try : M (list value) :=
  r <- requests_get_ (API_BASE_URL ++ "/models") ;;
  lift (raise_for_status r) ;;
  models <- lift (json_result r) ;;
  items <- lift (py_iter models) ;;
  names <- comprehension (fun m => lift (py_getitem m "name")) items ;;
  ret (VStr "latest" :: names).

Definition get_available_models : M (list value) :=
  try_except
    get_available_models_try
    (fun e =>
       if isinstance e RequestException then
         Some (st_error ("API 서버에서 모델 목록을 가져오는 데 실패했습니다: "
                           ++ exn_str e) ;;
               ret [VStr "latest"])
       else None).

(** *** The predict handler (body of [if st.button(...)]) *)

Definition predict_payload (selected_model : value) (input_intensities : list pyfloat)
    : value :=
  VDict [("model_name", selected_model);
         ("intensities", VList (map VFloat input_intensities))].

(** The [try] block. *)
Definition predict_request (selected_model : value) (input_intensities : list pyfloat)
    : M unit :=
  st_info "API 서버에 예측 요청 중..." ;;
  r <- requests_post_ (API_BASE_URL ++ "/predict")
         (predict_payload selected_model input_intensities) ;;
  assign_response r ;;
  r <- load_response ;;
  lift (raise_for_status r) ;;
  r <- load_response ;;
  result <- lift (json_result r) ;;
  predicted_te <- lift (py_getitem result "predicted_te") ;;
  te <- lift (format_4f predicted_te) ;;
  st_success ("예측된 전자 온도 (Te): " ++ te ++ " (eV?)") ;;
  model_used <- lift (py_getitem result "model_used") ;;
  st_caption ("사용된 모델: " ++ py_str model_used).

(** The inner [try] block of the [RequestException] clause. *)
Definition show_server_detail : M unit :=
  r <- load_response ;;
  body <- lift (json_result r) ;;
  error_detail <- lift (py_get body "detail" (VStr "상세 정보 없음")) ;;
  st_error ("서버 응답: " ++ py_str error_detail).

Definition predict (selected_model : value) (input_intensities : list pyfloat) : M unit :=
  try_except
    (predict_request selected_model input_intensities)
    (fun e =>
       if isinstance e RequestException then
         Some (st_error ("API 호출 실패: " ++ exn_str e) ;;
               try_except show_server_detail (fun _ => Some (ret tt)))
       else
         Some (st_error ("예측 처리 중 예상치 못한 오류 발생: " ++ exn_str e))).

(** *** The form (body of [if wavelength_labels:]) *)

Definition intensity_field (wavelength_labels : list value) (i : nat) : M pyfloat :=
  wl <- lift (list_getitem wavelength_labels i) ;;
  let label := py_str wl in
  st_number_input (i mod 4)%nat label zero "%.2f" ("intensity_" ++ dec_nat i).

Definition form (wavelength_labels : list value) (selected_model : value) : M unit :=
  emit (StSubheader "각 파장에서의 빛의 세기(Intensity) 입력:") ;;
  emit (StColumns 4) ;;
  input_intensities <- comprehension (intensity_field wavelength_labels) (seq 0 11) ;;
  clicked <- st_button "전자 온도 예측하기" ;;
  if clicked then predict selected_model input_intensities else ret tt.

(** [if wavelength_labels: ... else: ...] *)
Definition form_or_error (wavelength_labels : option (list value))
    (selected_model : value) : M unit :=
  match wavelength_labels with
  | Some ((_ :: _) as labels) => form labels selected_model
  | Some [] | None =>
      st_error "파장 정보를 로드할 수 없어 입력을 진행할 수 없습니다."
  end.

(** *** The module body, one run

    The call of line 70 goes through the cache of [@st.cache_data]; the run
    embedded here is one in which it misses, so that the body of the loader
    runs and the file is read.  On a run that hits the cache the body of the
    loader does not run and the file is not read. *)

Definition script : M unit :=
  emit (StSetPageConfig "Te 예측기" "wide") ;;
  emit (StTitle "플라즈마 전자 온도 (Te) 예측") ;;
  available_models <- get_available_models ;;
  selected_model <- st_selectbox "사용할 모델 선택:" available_models ;;
  emit StDivider ;;
  wavelength_labels <- load_wavelengths DATA_FILE_PATH ;;
  form_or_error wavelength_labels selected_model ;;
  emit (StSidebarHeader "API 서버 정보") ;;
  emit (StSidebarWrite ("백엔드 API 주소: " ++ API_BASE_URL)) ;;
  emit (StSidebarInfo
          "FastAPI 서버가 먼저 실행 중이어야 합니다 (`uvicorn main:app --reload`).").

End App.

(** ** An interpreter and a world to run the script on

    [Sample.interp] reads and prints the way CPython 3 does on the part of the
    language the examples use: plain decimal literals ([float] also reads
    exponents, [inf], [nan] and surrounding blanks), floats printed in
    positional notation, containers without escapes in their strings. *)

Module Sample.

Definition is_digit (c : ascii) : bool :=
  let n := nat_of_ascii c in ((48 <=? n) && (n <=? 57))%nat.

(** The number written by a run of digits, with how many there are. *)
Fixpoint digits (s : string) (acc : Z) (len : nat) : option (Z * nat) :=
  match s with
  | EmptyString => Some (acc, len)
  | String c rest =>
      if is_digit c
      then digits rest (10 * acc + Z.of_nat (nat_of_ascii c - 48)) (S len)
      else None
  end.

(** [s] cut at its first point. *)
Fixpoint cut_point (s : string) : string * option string :=
  match s with
  | EmptyString => (EmptyString, None)
  | String c rest =>
      if Ascii.eqb c "."%char then (EmptyString, Some rest)
      else let '(a, b) := cut_point rest in (String c a, b)
  end.

Definition unsigned (s : string) : bool * string :=
  match s with
  | String c rest =>
      if Ascii.eqb c "-"%char then (true, rest)
      else if Ascii.eqb c "+"%char then (false, rest)
      else (false, s)
  | EmptyString => (false, s)
  end.

(** The double nearest to [n / 10^k] ([n >= 0]), ties to even. *)
Definition nearest (neg : bool) (n : Z) (k : nat) : pyfloat :=
  if n =? 0 then S754_zero neg
  else
    let den := 10 ^ Z.of_nat k in
    let s := Z.max 0 (66 + Z.log2 den - Z.log2 n) in
    let q := (n * 2 ^ s) / den in
    let sticky := if (n * 2 ^ s) mod den =? 0 then 0 else 1 in
    let m := 2 * q + sticky in
    binary_normalize prec emax (if neg then - m else m) (- s - 1) neg.

Definition read_float (s : string) : option pyfloat :=
  let '(neg, body) := unsigned s in
  let '(int_part, frac) := cut_point body in
  let frac_part := match frac with Some f => f | None => EmptyString end in
  match digits int_part 0 0, digits frac_part 0 0 with
  | Some (a, la), Some (b, lb) =>
      if (la + lb =? 0)%nat then None
      else Some (nearest neg (a * 10 ^ Z.of_nat lb + b) lb)
  | _, _ => None
  end.

(** [n] written with at least [k] digits. *)
Fixpoint pad (k : nat) (n : Z) : string :=
  match k with
  | O => EmptyString
  | S k' => pad k' (n / 10) ++ dec_Z (n mod 10)
  end.

(** The shortest [k]-decimal text, [1 <= k], that reads back as [m * 2^e]. *)
Fixpoint shortest (fuel k : nat) (m : positive) (e : Z) : string :=
  let n :=
    if 0 <=? e then Z.pos m * 2 ^ e * 10 ^ Z.of_nat k
    else round_half_even (Z.pos m * 10 ^ Z.of_nat k) (2 ^ (- e)) in
  let text := dec_Z (n / 10 ^ Z.of_nat k) ++ "." ++ pad k (n mod 10 ^ Z.of_nat k) in
  match fuel with
  | O => text
  | S fuel' =>
      match nearest false n k with
      | S754_finite _ m' e' =>
          if (Z.pos m' =? Z.pos m) && (e' =? e) then text
          else shortest fuel' (S k) m e
      | _ => shortest fuel' (S k) m e
      end
  end.

Definition print_float (x : pyfloat) : string :=
  match x with
  | S754_zero s => sign_str s ++ "0.0"
  | S754_infinity s => sign_str s ++ "inf"
  | S754_nan => "nan"
  | S754_finite s m e =>
      match binary_normalize prec emax (Z.pos m) e false with
      | S754_finite _ m' e' => sign_str s ++ shortest 30 1 m' e'
      | _ => sign_str s ++ "inf"
      end
  end.

Definition join (sep : string) (parts : list string) : string :=
  match parts with
  | [] => EmptyString
  | p :: rest => fold_left (fun acc q => acc ++ sep ++ q) rest p
  end.

Fixpoint print_value (v : value) : string :=
  match v with
  | VNone => "None"
  | VBool true => "True"
  | VBool false => "False"
  | VInt n => dec_Z n
  | VFloat x => print_float x
  | VStr s => "'" ++ s ++ "'"
  | VList xs => "[" ++ join ", " (map print_value xs) ++ "]"
  | VDict kvs =>
      "{" ++ join ", " (map (fun kv => "'" ++ fst kv ++ "': " ++ print_value (snd kv)) kvs)
        ++ "}"
  end.

Definition type_name (v : value) : string :=
  match v with
  | VNone => "NoneType"
  | VBool _ => "bool"
  | VInt _ => "int"
  | VFloat _ => "float"
  | VStr _ => "str"
  | VList _ => "list"
  | VDict _ => "dict"
  end.

(** The messages told by class and operand.  No other error is worded
    through this field. *)
Definition message (c : exn_class) (operand : value) : string :=
  match c, operand with
  | KeyError, _ => print_value operand
  | NameError, VStr name => "name '" ++ name ++ "' is not defined"
  | IndexError, _ => "list index out of range"
  | OverflowError, _ => "int too large to convert to float"
  | AttributeError, _ => "'" ++ type_name operand ++ "' object has no attribute 'get'"
  | _, _ => EmptyString
  end.

(** The messages of the built-ins, as CPython words them (3.11 and later),
    for strings that hold no quote and need no escape. *)
Definition rejection (by_ : builtin) (operand : value) : string :=
  match by_, operand with
  | Float, VStr s => "could not convert string to float: '" ++ s ++ "'"
  | Float, _ =>
      "float() argument must be a string or a real number, not '"
        ++ type_name operand ++ "'"
  | Format spec, VStr _ =>
      "Unknown format code '" ++ substring (String.length spec - 1) 1 spec
        ++ "' for object of type 'str'"
  | Format _, _ =>
      "unsupported format string passed to " ++ type_name operand ++ ".__format__"
  | Subscript, VStr _ => "string indices must be integers, not 'str'"
  | Subscript, VList _ => "list indices must be integers or slices, not str"
  | Subscript, _ => "'" ++ type_name operand ++ "' object is not subscriptable"
  | Iterate, _ => "'" ++ type_name operand ++ "' object is not iterable"
  end.

Definition interp : Interp := {|
  float_of_string := read_float;
  float_repr := print_float;
  container_repr := print_value;
  error_text := message;
  rejection_text := rejection
|}.

End Sample.

(** *** Sample inputs *)

Module Inputs.

(** A cell the way pandas types a token: a number where it reads as one. *)
Definition cell (token : string) : value :=
  match Sample.read_float token with
  | Some x => VFloat x
  | None => VStr token
  end.

Definition float_of (token : string) : pyfloat :=
  match Sample.read_float token with
  | Some x => x
  | None => zero
  end.

(** First line [Te 388.9 396.5 ... 777.4]: a name and eleven wavelengths. *)
Definition numeric_header : list value :=
  map cell ["Te"; "388.9"; "396.5"; "402.6"; "447.1"; "471.3"; "492.2";
            "501.6"; "587.6"; "667.8"; "706.5"; "777.4"].

(** First line [Te 656.3 Ha 486.1 Hb ...]: numbers and names mixed. *)
Definition mixed_header : list value :=
  map cell ["Te"; "656.3"; "Ha"; "486.1"; "Hb"; "434.0"; "Hg"; "410.2";
            "Hd"; "397.0"; "He"; "388.9"].

(** A first line with ten tokens after the first column. *)
Definition short_header : list value :=
  map cell ["Te"; "388.9"; "396.5"; "402.6"; "447.1"; "471.3"; "492.2";
            "501.6"; "587.6"; "667.8"; "706.5"].

Definition no_such_file : exn :=
  mk_exn FileNotFoundError
    "[Errno 2] No such file or directory: '/app/ML_Data/ML_data_for_learning_N1000.txt'".

Definition connection_refused : exn :=
  mk_exn ConnectionError
    "HTTPConnectionPool(host='127.0.0.1', port=8000): Max retries exceeded".

Definition respond (code : Z) (why url : string) (body : result value) : outcome :=
  Responded (mk_Response code why url body).

Definition not_json : exn :=
  mk_exn RequestsJSONDecodeError "Expecting value: line 1 column 1 (char 0)".

Definition models_url : string := "http://127.0.0.1:8000/models".
Definition predict_url : string := "http://127.0.0.1:8000/predict".

(** [[{"name":"a.model"},{"name":"b.model"}]] *)
Definition two_models : value :=
  VList [VDict [("name", VStr "a.model")]; VDict [("name", VStr "b.model")]].

(** [[{"id": 1}]] *)
Definition nameless_models : value := VList [VDict [("id", VInt 1)]].

(** [{"predicted_te": 3.52839, "model_used": "a.model"}] *)
Definition prediction : value :=
  VDict [("predicted_te", VFloat (float_of "3.52839")); ("model_used", VStr "a.model")].

(** [{"detail": "bad input"}] *)
Definition bad_input : value := VDict [("detail", VStr "bad input")].

Definition untouched : string -> option pyfloat := fun _ => None.

Definition make (csv : read_outcome) (get post : outcome) (clicked : bool) : world := {|
  project_root := "/app";
  read_csv := fun _ => csv;
  requests_get := fun _ => get;
  requests_post := fun _ _ => post;
  selectbox_index := 0;
  number_input_state := untouched;
  button_clicked := clicked
|}.

Definition models_ok : outcome := respond 200 "OK" models_url (Ok two_models).
Definition predict_ok : outcome := respond 200 "OK" predict_url (Ok prediction).
Definition predict_400 : outcome := respond 400 "Bad Request" predict_url (Ok bad_input).

(** The eleven wavelengths of [numeric_header]. *)
Definition wavelengths : list pyfloat :=
  map float_of ["388.9"; "396.5"; "402.6"; "447.1"; "471.3"; "492.2";
                "501.6"; "587.6"; "667.8"; "706.5"; "777.4"].

Definition labels_path : string := "/app/ML_Data/ML_data_for_learning_N1000.txt".

(** Everything answers as expected. *)
Definition healthy : world := make (Frame numeric_header) models_ok predict_ok true.
(** The label file mixes numbers and names. *)
Definition mixed : world := make (Frame mixed_header) models_ok predict_ok true.
(** The label file has ten labels. *)
Definition short : world := make (Frame short_header) models_ok predict_ok true.
(** No label file, no server. *)
Definition offline : world :=
  make (ReadFailed no_such_file) (Failed connection_refused) (Failed connection_refused) true.
(** The server rejects the prediction request. *)
Definition rejected : world := make (ReadFailed no_such_file) models_ok predict_400 true.
(** The server fails on the prediction request and answers with a page that is
    not JSON. *)
Definition broken : world :=
  make (Frame numeric_header) models_ok
       (respond 500 "Internal Server Error" predict_url (Raise not_json)) true.
(** The server lists a model without a name. *)
Definition nameless : world :=
  make (Frame numeric_header) (respond 200 "OK" models_url (Ok nameless_models))
       predict_ok false.

End Inputs.

(** ** Reading a trace *)

(** The GET requests of a trace, in order. *)
Definition gets (tr : list event) : list string :=
  flat_map (fun ev => match ev with HttpGet url => [url] | _ => [] end) tr.

(** The files read in a trace, in order. *)
Definition reads (tr : list event) : list string :=
  flat_map (fun ev => match ev with PdReadCsv filename => [filename] | _ => [] end) tr.

(** The number fields of a trace, in order: column, label, key. *)
Definition fields (tr : list event) : list (nat * string * string) :=
  flat_map (fun ev => match ev with
                      | StNumberInput col label _ _ key => [(col, label, key)]
                      | _ => []
                      end) tr.

(** A text shown on the page: info, success, caption, error, warning. *)
Definition is_message (ev : event) : bool :=
  match ev with
  | StInfo _ | StSuccess _ | StCaption _ | StError _ | StWarning _ => true
  | _ => false
  end.

(** *** More sample inputs *)

Module Cases.

(** [{"model_used": "a.model"}] *)
Definition no_temperature : value := VDict [("model_used", VStr "a.model")].

(** [{"predicted_te": 3.52839}] *)
Definition no_model : value := VDict [("predicted_te", VFloat (Inputs.float_of "3.52839"))].

(** [{"predicted_te": "3.5", "model_used": "a.model"}] *)
Definition text_temperature : value :=
  VDict [("predicted_te", VStr "3.5"); ("model_used", VStr "a.model")].

(** [{"error": "unprocessable"}] *)
Definition no_detail : value := VDict [("error", VStr "unprocessable")].

Definition answering (post : outcome) : world :=
  Inputs.make (Frame Inputs.numeric_header) Inputs.models_ok post true.

Definition listing (get : outcome) : world :=
  Inputs.make (Frame Inputs.numeric_header) get Inputs.predict_ok true.

Definition unavailable : outcome :=
  Inputs.respond 503 "Service Unavailable" Inputs.models_url (Raise Inputs.not_json).

Definition html_page (url : string) : outcome :=
  Inputs.respond 200 "OK" url (Raise Inputs.not_json).

(** Everything answers as expected and the button is not clicked. *)
Definition idle : world :=
  Inputs.make (Frame Inputs.numeric_header) Inputs.models_ok Inputs.predict_ok false.

(** No label file, a healthy server. *)
Definition unlabelled : world :=
  Inputs.make (ReadFailed Inputs.no_such_file) Inputs.models_ok Inputs.predict_ok true.

(** First line [Te Ha Hb ...]: eleven names. *)
Definition line_names : list string :=
  ["Ha"; "Hb"; "Hg"; "Hd"; "He"; "OI"; "NI"; "ArI"; "ArII"; "CuI"; "FeI"].

Definition named : world :=
  Inputs.make (Frame (VStr "Te" :: map VStr line_names)) Inputs.models_ok
    Inputs.predict_ok true.

(** What the lister does on [Inputs.models_ok]. *)
Definition listed : list value := [VStr "latest"; VStr "a.model"; VStr "b.model"].
Definition asked : list event := [HttpGet Inputs.models_url].

Definition unprocessable : outcome :=
  Inputs.respond 422 "Unprocessable Entity" Inputs.predict_url (Ok no_detail).

End Cases.

(** * Properties *)

Section Facts.
Context `{py : Interp}.

(** ** The monad *)

Lemma bind_ok {A B : Type} (c : M A) (k : A -> M B) st tr st' a :
  c st = (tr, st', Ok a) ->
  bind c k st = let '(tr', st'', r) := k a st' in ((tr ++ tr')%list, st'', r).
Proof. intros E. simpl. rewrite E. reflexivity. Qed.

Lemma bind_raise {A B : Type} (c : M A) (k : A -> M B) st tr st' e :
  c st = (tr, st', Raise e) ->
  bind c k st = (tr, st', Raise e).
Proof. intros E. simpl. rewrite E. reflexivity. Qed.

(** A comprehension over a pure conversion gives all results, in order. *)
Lemma comprehension_all_ok {A B : Type} (f : A -> result B) (xs : list A) (ys : list B) st :
  Forall2 (fun x y => f x = Ok y) xs ys ->
  comprehension (fun x => lift (f x)) xs st = ([], st, Ok ys).
Proof.
  induction 1 as [| x y xs ys Hxy _ IH]; [reflexivity |].
  cbn [comprehension].
  rewrite (bind_ok _ _ st [] st y) by (unfold lift; rewrite Hxy; reflexivity).
  rewrite (bind_ok _ _ st [] st ys IH). reflexivity.
Qed.

(** It stops at the first element that raises. *)
Lemma comprehension_first_raise {A B : Type} (f : A -> result B)
    (good : list A) (bad : A) (rest : list A) (e : exn) st :
  Forall (fun x => exists y, f x = Ok y) good ->
  f bad = Raise e ->
  comprehension (fun x => lift (f x)) (good ++ bad :: rest) st = ([], st, Raise e).
Proof.
  intros Hgood Hbad.
  induction Hgood as [| x good [y Hy] _ IH].
  - simpl. unfold lift. rewrite Hbad. reflexivity.
  - change ((x :: good) ++ bad :: rest)%list with (x :: (good ++ bad :: rest))%list.
    cbn [comprehension].
    rewrite (bind_ok _ _ st [] st y) by (unfold lift; rewrite Hy; reflexivity).
    rewrite (bind_raise _ _ st [] st e IH). reflexivity.
Qed.

Lemma Forall2_length_eq {A B : Type} (R : A -> B -> Prop) xs ys :
  Forall2 R xs ys -> List.length xs = List.length ys.
Proof. induction 1; simpl; congruence. Qed.

(** ** load_wavelengths *)

(** What [float] raises is a ValueError, a TypeError or an OverflowError. *)
Lemma py_float_raise_class (c : value) (e : exn) :
  py_float c = Raise e ->
  exn_cls e = ValueError \/ exn_cls e = TypeError \/ exn_cls e = OverflowError.
Proof.
  destruct c as [| b | n | x | s | xs | kvs]; simpl; unfold interp_error, rejected;
    try discriminate; try (intros [= <-]; simpl; tauto).
  - destruct (float_of_int n); [discriminate | intros [= <-]; simpl; tauto].
  - destruct (float_of_string s); [discriminate | intros [= <-]; simpl; tauto].
Qed.

(** On a cell of a frame it can only be a ValueError. *)
Lemma cell_float_raise (c : value) (e : exn) :
  is_cell c = true -> py_float c = Raise e -> isinstance e ValueError = true.
Proof.
  destruct c as [| b | n | x | s | xs | kvs]; simpl; unfold interp_error, rejected;
    try discriminate.
  - destruct (float_of_int n); discriminate.
  - destruct (float_of_string s); [discriminate | intros _ [= <-]; reflexivity].
Qed.

(** A comprehension over a pure conversion calls nothing and binds nothing;
    it gives the results of all elements or the error of one of them. *)
Lemma comprehension_pure {A B : Type} (f : A -> result B) (xs : list A) st :
  exists r,
    comprehension (fun x => lift (f x)) xs st = ([], st, r)
    /\ (forall ys, r = Ok ys -> Forall2 (fun x y => f x = Ok y) xs ys)
    /\ (forall e, r = Raise e -> exists x, In x xs /\ f x = Raise e).
Proof.
  induction xs as [| x xs (r & Hr & Hok & Hno)].
  - exists (Ok []). repeat split; [intros ys [= <-]; constructor | discriminate].
  - cbn [comprehension]. destruct (f x) as [y | e] eqn:Hx.
    + rewrite (bind_ok _ _ st [] st y) by reflexivity.
      destruct r as [ys | e].
      * exists (Ok (y :: ys)). rewrite (bind_ok _ _ st [] st ys Hr).
        repeat split; [| discriminate].
        intros ? [= <-]. constructor; [exact Hx | apply Hok; reflexivity].
      * exists (Raise e). rewrite (bind_raise _ _ st [] st e Hr).
        repeat split; [discriminate |].
        intros ? [= <-]. destruct (Hno e eq_refl) as (x' & Hin & Hx').
        exists x'. split; [right; exact Hin | exact Hx'].
    + exists (Raise e).
      rewrite (bind_raise _ _ st [] st e) by reflexivity.
      repeat split; [discriminate |].
      intros ? [= <-]. exists x. split; [left; reflexivity | exact Hx].
Qed.

(** C1 (as the code has it). A frame whose first row has exactly 11 cells
    after the first column: when every cell converts with [float], the loader
    returns the 11 floats; when the first cell that does not convert is text
    that does not read as a float ([ValueError]), it returns the 11 cells
    exactly as [read_csv] delivered them, numbers included.  For the cells
    pandas gives these are the only two cases.  Nothing is reported in
    either. *)
Theorem load_wavelengths_eleven_cells (w : world) (filename : string)
    (first : value) (cells : list value) (st : store) :
  read_csv w filename = Frame (first :: cells) ->
  List.length cells = 11%nat ->
  (forall xs,
     Forall2 (fun c x => py_float c = Ok x) cells xs ->
     load_wavelengths w filename st
       = ([PdReadCsv filename], st, Ok (Some (map VFloat xs))))
  /\
  (forall good bad rest e,
     cells = (good ++ bad :: rest)%list ->
     Forall (fun c => exists x, py_float c = Ok x) good ->
     py_float bad = Raise e ->
     isinstance e ValueError = true ->
     load_wavelengths w filename st = ([PdReadCsv filename], st, Ok (Some cells)))
  /\
  (forallb is_cell cells = true ->
   (forall xs, ~ Forall2 (fun c x => py_float c = Ok x) cells xs) ->
   load_wavelengths w filename st = ([PdReadCsv filename], st, Ok (Some cells))).
Proof.
  intros Hcsv Hlen. split; [| split].
  - intros xs Hxs.
    unfold load_wavelengths, load_wavelengths_try, try_except, pd_read_csv. simpl.
    rewrite Hcsv. simpl.
    rewrite (comprehension_all_ok py_float cells xs st Hxs). simpl.
    rewrite length_map, <- (Forall2_length_eq _ _ _ Hxs), Hlen. reflexivity.
  - intros good bad rest e Hcells Hgood Hbad Hcls.
    unfold load_wavelengths, load_wavelengths_try, try_except, pd_read_csv. simpl.
    rewrite Hcsv. simpl. rewrite Hcells at 1.
    rewrite (comprehension_first_raise py_float good bad rest e st Hgood Hbad).
    rewrite Hcls. simpl. rewrite Hlen. reflexivity.
  - intros Hcells Hnot.
    destruct (comprehension_pure py_float cells st) as (r & Hr & Hok & Hno).
    destruct r as [xs | e]; [destruct (Hnot xs (Hok xs eq_refl)) |].
    destruct (Hno e eq_refl) as (c & Hin & Hc).
    rewrite forallb_forall in Hcells.
    unfold load_wavelengths, load_wavelengths_try, try_except, pd_read_csv. simpl.
    rewrite Hcsv. simpl. rewrite Hr.
    rewrite (cell_float_raise c e (Hcells c Hin) Hc). simpl. rewrite Hlen. reflexivity.
Qed.

(** The [try] block on a frame, by the outcome of the conversions. *)
Lemma load_wavelengths_try_frame (w : world) (filename : string) (row : list value)
    (st : store) (r : result (list pyfloat)) :
  read_csv w filename = Frame row ->
  comprehension (fun wl => lift (py_float wl)) (tl row) st = ([], st, r) ->
  load_wavelengths_try w filename st =
    match r with
    | Ok xs =>
        if (List.length xs =? 11)%nat
        then ([PdReadCsv filename], st, Ok (Some (map VFloat xs)))
        else ([PdReadCsv filename;
               StError "파장 데이터 로딩 오류: 11개 파장이 아닙니다."], st, Ok None)
    | Raise e =>
        if isinstance e ValueError then
          if (List.length (tl row) =? 11)%nat
          then ([PdReadCsv filename], st, Ok (Some (tl row)))
          else ([PdReadCsv filename;
                 StError "파장 데이터 로딩 오류: 11개 파장이 아닙니다."], st, Ok None)
        else ([PdReadCsv filename], st, Raise e)
    end.
Proof.
  intros Hcsv Hr.
  unfold load_wavelengths_try, try_except, pd_read_csv, iloc_0_from_1. simpl.
  rewrite Hcsv. simpl. rewrite Hr.
  destruct r as [xs | e]; simpl.
  - rewrite length_map. destruct (List.length xs =? 11)%nat; reflexivity.
  - destruct (isinstance e ValueError); simpl; [| reflexivity].
    destruct (List.length (tl row) =? 11)%nat; reflexivity.
Qed.

Lemma load_wavelengths_try_read_failed (w : world) (filename : string) (e : exn) st :
  read_csv w filename = ReadFailed e ->
  load_wavelengths_try w filename st = ([PdReadCsv filename], st, Raise e).
Proof.
  intros Hcsv. unfold load_wavelengths_try, pd_read_csv. simpl.
  rewrite Hcsv. reflexivity.
Qed.

(** A frame of cells with a count other than 11: an error, and no labels. *)
Lemma load_wavelengths_mismatch (w : world) (filename : string) (row : list value) st :
  read_csv w filename = Frame row ->
  forallb is_cell (tl row) = true ->
  List.length (tl row) <> 11%nat ->
  load_wavelengths w filename st
    = ([PdReadCsv filename; StError "파장 데이터 로딩 오류: 11개 파장이 아닙니다."],
       st, Ok None).
Proof.
  intros Hcsv Hcells Hlen.
  destruct (comprehension_pure py_float (tl row) st) as (r & Hr & Hok & Hno).
  unfold load_wavelengths, try_except.
  rewrite (load_wavelengths_try_frame w filename row st r Hcsv Hr).
  apply Nat.eqb_neq in Hlen.
  destruct r as [xs | e].
  - rewrite <- (Forall2_length_eq _ _ _ (Hok xs eq_refl)), Hlen. reflexivity.
  - destruct (Hno e eq_refl) as (c & Hin & Hc).
    rewrite forallb_forall in Hcells.
    rewrite (cell_float_raise c e (Hcells c Hin) Hc), Hlen. reflexivity.
Qed.

(** The [except] clauses: a warning, then the placeholder labels. *)
Lemma load_wavelengths_handles (w : world) (filename : string) (st st' : store)
    (tr : list event) (e : exn) :
  load_wavelengths_try w filename st = (tr, st', Raise e) ->
  load_wavelengths w filename st
    = ((tr ++ [StWarning
                 (if isinstance e FileNotFoundError
                  then "'" ++ filename ++ "' 파일 찾기 실패. 기본 레이블 사용."
                  else "파장 로딩 오류: " ++ exn_str e ++ ". 기본 레이블 사용.")])%list,
       st', Ok (Some placeholder_labels)).
Proof.
  intros Htry. unfold load_wavelengths, try_except. rewrite Htry.
  destruct (isinstance e FileNotFoundError); reflexivity.
Qed.

Lemma load_wavelengths_read_failed (w : world) (filename : string) (st : store)
    (e : exn) :
  read_csv w filename = ReadFailed e ->
  load_wavelengths w filename st
    = ([PdReadCsv filename;
        StWarning
          (if isinstance e FileNotFoundError
           then "'" ++ filename ++ "' 파일 찾기 실패. 기본 레이블 사용."
           else "파장 로딩 오류: " ++ exn_str e ++ ". 기본 레이블 사용.")],
       st, Ok (Some placeholder_labels)).
Proof.
  intros Hcsv.
  exact (load_wavelengths_handles w filename st st _ e
           (load_wavelengths_try_read_failed w filename e st Hcsv)).
Qed.

(** C4 (as the code has it). When reading the file raises (the file is
    absent, or any other exception), and more generally whenever the [try]
    block raises, the loader gives one warning, no error, and returns the
    placeholder labels, which are "파장 1" to "파장 11". *)
Theorem load_wavelengths_placeholders (w : world) (filename : string) (st : store) :
  (forall e,
     read_csv w filename = ReadFailed e ->
     load_wavelengths w filename st
       = ([PdReadCsv filename;
           StWarning
             (if isinstance e FileNotFoundError
              then "'" ++ filename ++ "' 파일 찾기 실패. 기본 레이블 사용."
              else "파장 로딩 오류: " ++ exn_str e ++ ". 기본 레이블 사용.")],
          st, Ok (Some placeholder_labels)))
  /\
  (forall tr st' e,
     load_wavelengths_try w filename st = (tr, st', Raise e) ->
     load_wavelengths w filename st
       = ((tr ++ [StWarning
                    (if isinstance e FileNotFoundError
                     then "'" ++ filename ++ "' 파일 찾기 실패. 기본 레이블 사용."
                     else "파장 로딩 오류: " ++ exn_str e ++ ". 기본 레이블 사용.")])%list,
          st', Ok (Some placeholder_labels)))
  /\
  placeholder_labels
    = [VStr "파장 1"; VStr "파장 2"; VStr "파장 3"; VStr "파장 4"; VStr "파장 5";
       VStr "파장 6"; VStr "파장 7"; VStr "파장 8"; VStr "파장 9"; VStr "파장 10";
       VStr "파장 11"].
Proof.
  split; [| split].
  - intros e. apply load_wavelengths_read_failed.
  - intros tr st' e. apply load_wavelengths_handles.
  - reflexivity.
Qed.

(** C5. A frame of cells whose count after the first column is not 11: the
    loader reports a validation error and returns None; the caller then
    renders an error and nothing of the form (no field, no button, no
    request); and this differs from what a failed read gives (a warning and
    the placeholder labels). *)
Theorem load_wavelengths_wrong_count (w : world) (filename : string) (row : list value) :
  read_csv w filename = Frame row ->
  forallb is_cell (tl row) = true ->
  List.length (tl row) <> 11%nat ->
  (forall st,
     load_wavelengths w filename st
       = ([PdReadCsv filename; StError "파장 데이터 로딩 오류: 11개 파장이 아닙니다."],
          st, Ok None))
  /\
  (forall st selected_model,
     form_or_error w None selected_model st
       = ([StError "파장 정보를 로드할 수 없어 입력을 진행할 수 없습니다."], st, Ok tt))
  /\
  (forall st tr st' available_models,
     filename = DATA_FILE_PATH w ->
     get_available_models w st = (tr, st', Ok available_models) ->
     script w st
       = (([StSetPageConfig "Te 예측기" "wide"; StTitle "플라즈마 전자 온도 (Te) 예측"]
           ++ tr
           ++ [StSelectbox "사용할 모델 선택:" available_models;
               StDivider;
               PdReadCsv filename;
               StError "파장 데이터 로딩 오류: 11개 파장이 아닙니다.";
               StError "파장 정보를 로드할 수 없어 입력을 진행할 수 없습니다.";
               StSidebarHeader "API 서버 정보";
               StSidebarWrite "백엔드 API 주소: http://127.0.0.1:8000";
               StSidebarInfo
                 "FastAPI 서버가 먼저 실행 중이어야 합니다 (`uvicorn main:app --reload`)."])%list,
          st', Ok tt))
  /\
  (forall st w' e,
     read_csv w' filename = ReadFailed e ->
     result_of (load_wavelengths w' filename) st = Ok (Some placeholder_labels)
     /\ result_of (load_wavelengths w filename) st
          <> result_of (load_wavelengths w' filename) st
     /\ trace_of (load_wavelengths w filename) st
          <> trace_of (load_wavelengths w' filename) st).
Proof.
  intros Hcsv Hcells Hlen.
  assert (Hload := fun st => load_wavelengths_mismatch w filename row st Hcsv Hcells Hlen).
  split; [exact Hload |]. split; [reflexivity |]. split.
  - intros st tr st' available_models -> Hget.
    unfold script. simpl. rewrite Hget. simpl. rewrite Hload. reflexivity.
  - intros st w' e Hcsv'.
    assert (Hload' := load_wavelengths_read_failed w' filename st e Hcsv').
    unfold result_of, trace_of. rewrite Hload, Hload'. simpl.
    repeat split; discriminate.
Qed.

(** Whatever list the loader returns has 11 elements. *)
Lemma load_wavelengths_some_length (w : world) (filename : string) (st : store)
    (labels : list value) :
  result_of (load_wavelengths w filename) st = Ok (Some labels) ->
  List.length labels = 11%nat.
Proof.
  unfold result_of.
  destruct (read_csv w filename) as [e | row] eqn:Hcsv.
  - rewrite (load_wavelengths_read_failed w filename st e Hcsv).
    simpl. intros [= <-]. reflexivity.
  - destruct (comprehension_pure py_float (tl row) st) as (r & Hr & Hok & _).
    unfold load_wavelengths, try_except.
    rewrite (load_wavelengths_try_frame w filename row st r Hcsv Hr).
    destruct r as [xs | e].
    + destruct (List.length xs =? 11)%nat eqn:Hn; simpl; [| discriminate].
      intros [= <-]. rewrite length_map. apply Nat.eqb_eq, Hn.
    + destruct (isinstance e ValueError).
      * destruct (List.length (tl row) =? 11)%nat eqn:Hn; simpl; [| discriminate].
        intros [= <-]. apply Nat.eqb_eq, Hn.
      * destruct (isinstance e FileNotFoundError); simpl;
          intros [= <-]; reflexivity.
Qed.

(** C6 (as the code has it). A parsed sequence of cells whose length is not
    11 is reported as an error and the loader returns None: it does not fall
    back to the placeholder labels.  Every list the loader does return has
    length 11. *)
Theorem wavelength_labels_length (w : world) (filename : string) (row : list value)
    (st : store) :
  read_csv w filename = Frame row ->
  forallb is_cell (tl row) = true ->
  List.length (tl row) <> 11%nat ->
  result_of (load_wavelengths w filename) st = Ok None
  /\ In (StError "파장 데이터 로딩 오류: 11개 파장이 아닙니다.")
        (trace_of (load_wavelengths w filename) st)
  /\ result_of (load_wavelengths w filename) st <> Ok (Some placeholder_labels)
  /\ (forall w' filename' st' labels,
        result_of (load_wavelengths w' filename') st' = Ok (Some labels) ->
        List.length labels = 11%nat).
Proof.
  intros Hcsv Hcells Hlen.
  unfold result_of, trace_of.
  rewrite (load_wavelengths_mismatch w filename row st Hcsv Hcells Hlen). simpl.
  repeat split.
  - right. left. reflexivity.
  - discriminate.
  - exact load_wavelengths_some_length.
Qed.

(** ** get_available_models *)

Lemma raise_for_status_ok (r : Response) :
  status_code r < 400 \/ 600 <= status_code r -> raise_for_status r = Ok tt.
Proof.
  intros Hs. unfold raise_for_status.
  destruct (400 <=? status_code r) eqn:H4, (status_code r <? 500) eqn:H5,
           (500 <=? status_code r) eqn:H6, (status_code r <? 600) eqn:H7;
    simpl; try reflexivity; exfalso; lia.
Qed.

Lemma raise_for_status_error (r : Response) :
  400 <= status_code r < 600 ->
  exists text,
    raise_for_status r = Raise (mk_exn HTTPError text)
    /\ (text = dec_Z (status_code r) ++ " Client Error: " ++ reason r
                 ++ " for url: " ++ url r
        \/ text = dec_Z (status_code r) ++ " Server Error: " ++ reason r
                    ++ " for url: " ++ url r).
Proof.
  intros Hs. unfold raise_for_status.
  destruct (400 <=? status_code r) eqn:H4, (status_code r <? 500) eqn:H5,
           (500 <=? status_code r) eqn:H6, (status_code r <? 600) eqn:H7;
    simpl; try (exfalso; lia); eexists; split; try reflexivity; tauto.
Qed.

(** The [try] block, once the GET is answered with a status that passes
    and a body that decodes to a list. *)
Lemma get_available_models_try_list (w : world) (r : Response) (models : list value)
    (res : result (list value)) (st : store) :
  requests_get w (API_BASE_URL ++ "/models") = Responded r ->
  raise_for_status r = Ok tt ->
  json_result r = Ok (VList models) ->
  comprehension (fun m => lift (py_getitem m "name")) models st = ([], st, res) ->
  get_available_models_try w st
    = ([HttpGet (API_BASE_URL ++ "/models")], st,
       match res with
       | Ok names => Ok (VStr "latest" :: names)
       | Raise e => Raise e
       end).
Proof.
  intros Hget Hstatus Hjson Hnames.
  unfold get_available_models_try, requests_get_. simpl in Hget |- *.
  rewrite Hget. simpl. rewrite Hstatus. simpl. rewrite Hjson. simpl.
  rewrite Hnames. destruct res; reflexivity.
Qed.

(** C7. A successful GET whose body is a JSON array of objects, each with a
    string under "name": the lister returns "latest" followed by those names,
    in order, and reports nothing. *)
Theorem get_available_models_names (w : world) (r : Response) (models : list value)
    (names : list string) (st : store) :
  requests_get w (API_BASE_URL ++ "/models") = Responded r ->
  200 <= status_code r < 300 ->
  json_result r = Ok (VList models) ->
  Forall2 (fun m name =>
             exists kvs, m = VDict kvs /\ dict_lookup "name" kvs = Some (VStr name))
          models names ->
  get_available_models w st
    = ([HttpGet (API_BASE_URL ++ "/models")], st, Ok (VStr "latest" :: map VStr names)).
Proof.
  intros Hget Hstatus Hjson Hnames.
  assert (Hcomp : comprehension (fun m => lift (py_getitem m "name")) models st
                  = ([], st, Ok (map VStr names))).
  { apply comprehension_all_ok. clear Hjson.
    induction Hnames as [| m name models names (kvs & -> & Hkv) _ IH]; simpl.
    - constructor.
    - constructor; [simpl; rewrite Hkv; reflexivity | exact IH]. }
  unfold get_available_models, try_except.
  rewrite (get_available_models_try_list w r models _ st Hget
             (raise_for_status_ok r ltac:(lia)) Hjson Hcomp).
  reflexivity.
Qed.

(** C3, where the code departs from it. A successful GET whose body is a
    JSON array holding an object without "name": the KeyError is no
    RequestException, the [except] clause does not match it, and it leaves
    the lister; nothing is reported and no list is returned. *)
Theorem get_available_models_key_error (w : world) (r : Response)
    (named : list value) (kvs : list (string * value)) (rest : list value) (st : store) :
  requests_get w (API_BASE_URL ++ "/models") = Responded r ->
  200 <= status_code r < 300 ->
  json_result r = Ok (VList (named ++ VDict kvs :: rest)) ->
  Forall (fun m => exists name, py_getitem m "name" = Ok name) named ->
  dict_lookup "name" kvs = None ->
  get_available_models w st
    = ([HttpGet (API_BASE_URL ++ "/models")], st,
       Raise (mk_exn KeyError (error_text KeyError (VStr "name")))).
Proof.
  intros Hget Hstatus Hjson Hnamed Hkv.
  assert (Hcomp : comprehension (fun m => lift (py_getitem m "name"))
                    (named ++ VDict kvs :: rest) st
                  = ([], st, Raise (mk_exn KeyError (error_text KeyError (VStr "name"))))).
  { apply (comprehension_first_raise (fun m => py_getitem m "name") named (VDict kvs) rest).
    - exact Hnamed.
    - simpl. rewrite Hkv. reflexivity. }
  unfold get_available_models, try_except.
  rewrite (get_available_models_try_list w r _ _ st Hget
             (raise_for_status_ok r ltac:(lia)) Hjson Hcomp).
  reflexivity.
Qed.

(** When the [try] block raises a RequestException (no connection, a 4xx or
    5xx status, a body that is not JSON), the lister reports it and returns
    ["latest"]. *)
Lemma get_available_models_fallback (w : world) (st st' : store) (tr : list event)
    (e : exn) :
  get_available_models_try w st = (tr, st', Raise e) ->
  isinstance e RequestException = true ->
  get_available_models w st
    = ((tr ++ [StError ("API 서버에서 모델 목록을 가져오는 데 실패했습니다: "
                          ++ exn_str e)])%list,
       st', Ok [VStr "latest"]).
Proof.
  intros Htry Hcls. unfold get_available_models, try_except.
  rewrite Htry, Hcls. reflexivity.
Qed.

(** Any other exception of the [try] block leaves the lister. *)
Lemma get_available_models_propagates (w : world) (st st' : store) (tr : list event)
    (e : exn) :
  get_available_models_try w st = (tr, st', Raise e) ->
  isinstance e RequestException = false ->
  get_available_models w st = (tr, st', Raise e).
Proof.
  intros Htry Hcls. unfold get_available_models, try_except.
  rewrite Htry, Hcls. reflexivity.
Qed.

(** ** The format spec [.4f] *)




Lemma digit_length (n : Z) : String.length (digit n) = 1%nat.
Proof.
  unfold digit. pose proof (Z.mod_pos_bound n 10 ltac:(lia)) as Hr.
  assert (Hcases : n mod 10 = 0 \/ n mod 10 = 1 \/ n mod 10 = 2 \/ n mod 10 = 3
                   \/ n mod 10 = 4 \/ n mod 10 = 5 \/ n mod 10 = 6 \/ n mod 10 = 7
                   \/ n mod 10 = 8 \/ n mod 10 = 9) by lia.
  repeat (destruct Hcases as [-> | Hcases]; [reflexivity |]).
  rewrite Hcases. reflexivity.
Qed.

Lemma string_length_app (a b : string) :
  String.length (a ++ b) = (String.length a + String.length b)%nat.
Proof. induction a as [| c a IH]; simpl; [reflexivity | rewrite IH; reflexivity]. Qed.

(** Exactly four digits follow the point. *)
Lemma frac4_length (n : Z) : String.length (frac4 n) = 4%nat.
Proof.
  unfold frac4. rewrite !string_length_app, !digit_length. reflexivity.
Qed.

(** ** The predict handler *)

(** The [try] block when [requests.post] itself raises: [response] stays as it was. *)
Lemma predict_request_network_failure (w : world) (selected_model : value)
    (input_intensities : list pyfloat) (st : store) (e : exn) :
  requests_post w (API_BASE_URL ++ "/predict")
    (predict_payload selected_model input_intensities) = Failed e ->
  predict_request w selected_model input_intensities st
    = ([StInfo "API 서버에 예측 요청 중...";
        HttpPost (API_BASE_URL ++ "/predict")
          (predict_payload selected_model input_intensities)],
       st, Raise e).
Proof.
  intros Hpost. unfold predict_request, requests_post_. simpl in Hpost |- *.
  rewrite Hpost. reflexivity.
Qed.

(** The [try] block when the POST is answered, step by step. *)
Lemma predict_request_responded (w : world) (selected_model : value)
    (input_intensities : list pyfloat) (st : store) (r : Response) :
  requests_post w (API_BASE_URL ++ "/predict")
    (predict_payload selected_model input_intensities) = Responded r ->
  predict_request w selected_model input_intensities st
    = let sent := [StInfo "API 서버에 예측 요청 중...";
                   HttpPost (API_BASE_URL ++ "/predict")
                     (predict_payload selected_model input_intensities)] in
      let bound := {| response := Some r |} in
      match raise_for_status r with
      | Raise e => (sent, bound, Raise e)
      | Ok _ =>
      match json_result r with
      | Raise e => (sent, bound, Raise e)
      | Ok result =>
      match py_getitem result "predicted_te" with
      | Raise e => (sent, bound, Raise e)
      | Ok predicted_te =>
      match format_4f predicted_te with
      | Raise e => (sent, bound, Raise e)
      | Ok te =>
      match py_getitem result "model_used" with
      | Raise e =>
          ((sent ++ [StSuccess ("예측된 전자 온도 (Te): " ++ te ++ " (eV?)")])%list,
           bound, Raise e)
      | Ok model_used =>
          ((sent ++ [StSuccess ("예측된 전자 온도 (Te): " ++ te ++ " (eV?)");
                     StCaption ("사용된 모델: " ++ py_str model_used)])%list,
           bound, Ok tt)
      end end end end end.
Proof.
  intros Hpost. unfold predict_request, requests_post_. simpl in Hpost |- *.
  rewrite Hpost. simpl.
  destruct (raise_for_status r) as [[] | e]; simpl; [| reflexivity].
  destruct (json_result r) as [result | e]; simpl; [| reflexivity].
  destruct (py_getitem result "predicted_te") as [predicted_te | e]; simpl;
    [| reflexivity].
  destruct (format_4f predicted_te) as [te | e]; simpl; [| reflexivity].
  destruct (py_getitem result "model_used") as [model_used | e]; reflexivity.
Qed.







(** The [RequestException] clause: the failure, then the detail of the
    bound response when its body decodes to a JSON object. *)
Lemma predict_handles_request_exception (w : world) (selected_model : value)
    (input_intensities : list pyfloat) (st st' : store) (tr : list event) (e : exn) :
  predict_request w selected_model input_intensities st = (tr, st', Raise e) ->
  isinstance e RequestException = true ->
  predict w selected_model input_intensities st
    = ((tr ++ StError ("API 호출 실패: " ++ exn_str e)
          :: match response st' with
             | Some r =>
                 match json_result r with
                 | Ok (VDict body) =>
                     [StError ("서버 응답: " ++
                                py_str (match dict_lookup "detail" body with
                                        | Some detail => detail
                                        | None => VStr "상세 정보 없음"
                                        end))]
                 | _ => []
                 end
             | None => []
             end)%list,
       st', Ok tt).
Proof.
  intros Htry Hcls. unfold predict, try_except. rewrite Htry, Hcls.
  unfold show_server_detail, load_response. simpl.
  destruct (response st') as [r |]; simpl; [| reflexivity].
  destruct (json_result r) as [[| b | n | x | s | xs | body] | e']; simpl;
    try reflexivity.
  destruct (dict_lookup "detail" body); reflexivity.
Qed.

(** The [Exception] clause. *)
Lemma predict_handles_other_exception (w : world) (selected_model : value)
    (input_intensities : list pyfloat) (st st' : store) (tr : list event) (e : exn) :
  predict_request w selected_model input_intensities st = (tr, st', Raise e) ->
  isinstance e RequestException = false ->
  predict w selected_model input_intensities st
    = ((tr ++ [StError ("예측 처리 중 예상치 못한 오류 발생: " ++ exn_str e)])%list,
       st', Ok tt).
Proof.
  intros Htry Hcls. unfold predict, try_except. rewrite Htry, Hcls. reflexivity.
Qed.

(** C8. Whenever the [try] block of the handler raises a RequestException
    (the POST failed, the status was 4xx or 5xx, or the body did not decode),
    the handler ends normally and shows first the failure with the text of
    the exception.  After it comes the "detail" of the last response when
    that response is bound and its body decodes to a JSON object holding
    one; when no response is bound or its body does not decode, nothing comes
    after it. *)
Theorem predict_failure (w : world) (selected_model : value)
    (input_intensities : list pyfloat) (st st' : store) (tr : list event) (e : exn) :
  predict_request w selected_model input_intensities st = (tr, st', Raise e) ->
  isinstance e RequestException = true ->
  result_of (predict w selected_model input_intensities) st = Ok tt
  /\
  (exists secondary,
     trace_of (predict w selected_model input_intensities) st
       = (tr ++ StError ("API 호출 실패: " ++ exn_str e) :: secondary)%list)
  /\
  (forall r body detail,
     response st' = Some r ->
     json_result r = Ok (VDict body) ->
     dict_lookup "detail" body = Some detail ->
     trace_of (predict w selected_model input_intensities) st
       = (tr ++ [StError ("API 호출 실패: " ++ exn_str e);
                 StError ("서버 응답: " ++ py_str detail)])%list)
  /\
  (response st' = None
   \/ (exists r e', response st' = Some r /\ json_result r = Raise e')
   \/ (exists r xs, response st' = Some r /\ json_result r = Ok (VList xs)) ->
   trace_of (predict w selected_model input_intensities) st
     = (tr ++ [StError ("API 호출 실패: " ++ exn_str e)])%list).
Proof.
  intros Htry Hcls. unfold result_of, trace_of.
  rewrite (predict_handles_request_exception w _ _ st st' tr e Htry Hcls). simpl.
  split; [reflexivity |]. split; [eexists; reflexivity |]. split.
  - intros r body detail -> -> ->. reflexivity.
  - intros [-> | [(r & e' & -> & ->) | (r & xs & -> & ->)]]; reflexivity.
Qed.

(** A 4xx or 5xx answer makes the [try] block raise an HTTPError, with
    [response] bound to the answer. *)
Lemma predict_request_http_failure (w : world) (selected_model : value)
    (input_intensities : list pyfloat) (st : store) (r : Response) :
  requests_post w (API_BASE_URL ++ "/predict")
    (predict_payload selected_model input_intensities) = Responded r ->
  400 <= status_code r < 600 ->
  exists text,
    predict_request w selected_model input_intensities st
      = ([StInfo "API 서버에 예측 요청 중...";
          HttpPost (API_BASE_URL ++ "/predict")
            (predict_payload selected_model input_intensities)],
         {| response := Some r |}, Raise (mk_exn HTTPError text)).
Proof.
  intros Hpost Hstatus.
  destruct (raise_for_status_error r Hstatus) as (text & Hraise & _).
  exists text. rewrite (predict_request_responded w _ _ st r Hpost), Hraise.
  reflexivity.
Qed.

(** C10. When [requests.post] itself raises, no response is bound: reading
    the detail raises a NameError, the bare [except] swallows it, and the
    handler ends normally having shown one failure message only. *)
Theorem predict_unbound_response (w : world) (selected_model : value)
    (input_intensities : list pyfloat) (e : exn) :
  requests_post w (API_BASE_URL ++ "/predict")
    (predict_payload selected_model input_intensities) = Failed e ->
  predict w selected_model input_intensities empty_store
    = ([StInfo "API 서버에 예측 요청 중...";
        HttpPost (API_BASE_URL ++ "/predict")
          (predict_payload selected_model input_intensities);
        StError (if isinstance e RequestException
                 then "API 호출 실패: " ++ exn_str e
                 else "예측 처리 중 예상치 못한 오류 발생: " ++ exn_str e)],
       empty_store, Ok tt)
  /\ show_server_detail empty_store
       = ([], empty_store, Raise (mk_exn NameError (error_text NameError (VStr "response"))))
  /\ try_except show_server_detail (fun _ => Some (ret tt)) empty_store
       = ([], empty_store, Ok tt).
Proof.
  intros Hpost. split; [| split; reflexivity].
  unfold predict, try_except.
  rewrite (predict_request_network_failure w _ _ empty_store e Hpost).
  destruct (isinstance e RequestException); reflexivity.
Qed.

(** ** The form *)

Lemma posts_app (a b : list event) : posts (a ++ b) = (posts a ++ posts b)%list.
Proof. apply flat_map_app. Qed.

(** The [try] block makes one POST, whatever the answer. *)
Lemma predict_request_posts (w : world) (selected_model : value)
    (input_intensities : list pyfloat) (st : store) :
  posts (trace_of (predict_request w selected_model input_intensities) st)
    = [(API_BASE_URL ++ "/predict", predict_payload selected_model input_intensities)].
Proof.
  unfold trace_of.
  destruct (requests_post w (API_BASE_URL ++ "/predict")
              (predict_payload selected_model input_intensities)) as [e | r] eqn:Hpost.
  - rewrite (predict_request_network_failure w _ _ st e Hpost). reflexivity.
  - rewrite (predict_request_responded w _ _ st r Hpost). simpl.
    destruct (raise_for_status r); [| reflexivity].
    destruct (json_result r) as [result |]; [| reflexivity].
    destruct (py_getitem result "predicted_te") as [predicted_te |]; [| reflexivity].
    destruct (format_4f predicted_te); [| reflexivity].
    destruct (py_getitem result "model_used"); reflexivity.
Qed.

(** The [except] clauses add messages, never a request. *)
Lemma predict_trace (w : world) (selected_model : value)
    (input_intensities : list pyfloat) (st : store) :
  exists shown,
    trace_of (predict w selected_model input_intensities) st
      = (trace_of (predict_request w selected_model input_intensities) st ++ shown)%list
    /\ posts shown = [].
Proof.
  unfold trace_of at 2.
  destruct (predict_request w selected_model input_intensities st)
    as [[tr st'] [[] | e]] eqn:Htry.
  - exists []. split; [| reflexivity].
    unfold trace_of, predict, try_except. rewrite Htry. simpl.
    rewrite app_nil_r. reflexivity.
  - destruct (isinstance e RequestException) eqn:Hcls.
    + eexists. unfold trace_of.
      rewrite (predict_handles_request_exception w _ _ st st' tr e Htry Hcls). simpl.
      split; [reflexivity |].
      destruct (response st') as [r |]; [| reflexivity].
      destruct (json_result r) as [[| b | n | x | s | xs | body] |]; reflexivity.
    + eexists. unfold trace_of.
      rewrite (predict_handles_other_exception w _ _ st st' tr e Htry Hcls). simpl.
      split; reflexivity.
Qed.

(** Whatever the answer, the handler makes exactly one POST: the payload to
    [/predict]. *)
Lemma predict_posts (w : world) (selected_model : value)
    (input_intensities : list pyfloat) (st : store) :
  posts (trace_of (predict w selected_model input_intensities) st)
    = [(API_BASE_URL ++ "/predict", predict_payload selected_model input_intensities)].
Proof.
  destruct (predict_trace w selected_model input_intensities st) as (shown & -> & Hshown).
  rewrite posts_app, predict_request_posts, Hshown. reflexivity.
Qed.

(** The fields of the form, and the values read from them. *)
Lemma form_trace (w : world) (wavelength_labels : list value) (selected_model : value)
    (st : store) :
  List.length wavelength_labels = 11%nat ->
  button_clicked w = true ->
  let input_intensities :=
    map (fun i => match number_input_state w ("intensity_" ++ dec_nat i) with
                  | Some x => x
                  | None => zero
                  end) (seq 0 11) in
  form w wavelength_labels selected_model st
    = let '(tr, st', r) := predict w selected_model input_intensities st in
      (([StSubheader "각 파장에서의 빛의 세기(Intensity) 입력:"; StColumns 4]
        ++ map (fun i => StNumberInput (i mod 4)%nat
                           (py_str (nth i wavelength_labels VNone))
                           zero "%.2f" ("intensity_" ++ dec_nat i)) (seq 0 11)
        ++ [StButton "전자 온도 예측하기"] ++ tr)%list, st', r).
Proof.
  intros Hlen Hclick.
  do 12 (destruct wavelength_labels as [| ? wavelength_labels]; try discriminate Hlen).
  clear Hlen. intros input_intensities. subst input_intensities.
  unfold form, intensity_field, st_number_input, st_button.
  rewrite Hclick.
  generalize (predict w selected_model). intros p.
  simpl.
  destruct (p _ st) as [[tr st'] r]. reflexivity.
Qed.

(** The lister and the loader make no POST. *)
Lemma get_available_models_posts (w : world) (st : store) :
  posts (trace_of (get_available_models w) st) = [].
Proof.
  assert (Htry : posts (trace_of (get_available_models_try w) st) = []).
  { unfold get_available_models_try, requests_get_, trace_of. simpl.
    destruct (requests_get w _) as [e | r]; simpl; [reflexivity |].
    destruct (raise_for_status r) as [[] | e]; simpl; [| reflexivity].
    destruct (json_result r) as [models | e]; simpl; [| reflexivity].
    destruct (py_iter models) as [items | e]; simpl; [| reflexivity].
    destruct (comprehension_pure (fun m => py_getitem m "name") items st)
      as (res & Hres & _).
    rewrite Hres. destruct res; reflexivity. }
  unfold trace_of, get_available_models, try_except in *.
  destruct (get_available_models_try w st) as [[tr st'] [names | e]]; [exact Htry |].
  destruct (isinstance e RequestException); simpl in *; [| exact Htry].
  rewrite posts_app, Htry. reflexivity.
Qed.

Lemma load_wavelengths_posts (w : world) (filename : string) (st : store) :
  posts (trace_of (load_wavelengths w filename) st) = [].
Proof.
  unfold trace_of.
  destruct (read_csv w filename) as [e | row] eqn:Hcsv.
  - rewrite (load_wavelengths_read_failed w filename st e Hcsv). reflexivity.
  - destruct (comprehension_pure py_float (tl row) st) as (r & Hr & _).
    pose proof (load_wavelengths_try_frame w filename row st r Hcsv Hr) as Htry.
    destruct r as [xs | e].
    + unfold load_wavelengths, try_except. rewrite Htry.
      destruct (List.length xs =? 11)%nat; reflexivity.
    + destruct (isinstance e ValueError).
      * unfold load_wavelengths, try_except. rewrite Htry.
        destruct (List.length (tl row) =? 11)%nat; reflexivity.
      * rewrite (load_wavelengths_handles w filename st st _ e Htry). reflexivity.
Qed.

(** One run of the script, once the lister and the loader have returned. *)
Lemma script_trace (w : world) (models : list value) (labels : option (list value))
    (tr tr' : list event) (st st0 st' : store) :
  get_available_models w st0 = (tr, st, Ok models) ->
  load_wavelengths w (DATA_FILE_PATH w) st = (tr', st', Ok labels) ->
  script w st0
    = let '(shown, st'', r) :=
        form_or_error w labels (nth (selectbox_index w) models VNone) st' in
      (([StSetPageConfig "Te 예측기" "wide"; StTitle "플라즈마 전자 온도 (Te) 예측"]
        ++ tr
        ++ [StSelectbox "사용할 모델 선택:" models; StDivider]
        ++ tr'
        ++ shown
        ++ match r with
           | Ok _ =>
               [StSidebarHeader "API 서버 정보";
                StSidebarWrite "백엔드 API 주소: http://127.0.0.1:8000";
                StSidebarInfo
                  "FastAPI 서버가 먼저 실행 중이어야 합니다 (`uvicorn main:app --reload`)."]
           | Raise _ => []
           end)%list,
       st'', r).
Proof.
  intros Hget Hload.
  unfold script, st_selectbox. cbn -[form_or_error DATA_FILE_PATH].
  rewrite Hget. cbn -[form_or_error DATA_FILE_PATH].
  rewrite Hload. cbn -[form_or_error DATA_FILE_PATH].
  destruct (form_or_error w labels _ st') as [[shown st''] [[] | e]].
  - reflexivity.
  - cbn. rewrite app_nil_r. reflexivity.
Qed.

(** One run of the script with the button clicked: the one POST carries the
    option picked in the select box and the values of the eleven fields. *)
Lemma script_posts_once (w : world) (models labels : list value)
    (tr tr' : list event) (st st' : store) :
  button_clicked w = true ->
  get_available_models w empty_store = (tr, st, Ok models) ->
  load_wavelengths w (DATA_FILE_PATH w) st = (tr', st', Ok (Some labels)) ->
  posts (trace_of (script w) empty_store)
    = [(API_BASE_URL ++ "/predict",
        VDict [("model_name", nth (selectbox_index w) models VNone);
               ("intensities",
                VList (map VFloat
                         (map (fun i =>
                                 match number_input_state w ("intensity_" ++ dec_nat i) with
                                 | Some x => x
                                 | None => zero
                                 end) (seq 0 11))))])].
Proof.
  intros Hclick Hget Hload.
  assert (Hlen : List.length labels = 11%nat).
  { apply (load_wavelengths_some_length w (DATA_FILE_PATH w) st).
    unfold result_of. rewrite Hload. reflexivity. }
  pose proof (get_available_models_posts w empty_store) as Hp1.
  pose proof (load_wavelengths_posts w (DATA_FILE_PATH w) st) as Hp2.
  unfold trace_of in Hp1, Hp2. rewrite Hget in Hp1. rewrite Hload in Hp2.
  cbn [fst] in Hp1, Hp2.
  set (selected_model := nth (selectbox_index w) models VNone).
  pose proof (form_trace w labels selected_model st' Hlen Hclick) as Hform.
  pose proof (predict_posts w selected_model
                (map (fun i => match number_input_state w ("intensity_" ++ dec_nat i) with
                               | Some x => x
                               | None => zero
                               end) (seq 0 11)) st') as Hp3.
  cbv zeta in Hform. unfold trace_of in Hp3.
  assert (Hbranch : form_or_error w (Some labels) selected_model st'
                    = form w labels selected_model st').
  { destruct labels; [discriminate Hlen | reflexivity]. }
  unfold trace_of.
  rewrite (script_trace w models (Some labels) tr tr' st empty_store st' Hget Hload).
  fold selected_model. rewrite Hbranch, Hform.
  destruct (predict w selected_model _ st') as [[tr3 st3] r3].
  cbn [fst] in Hp3 |- *.
  rewrite !posts_app, Hp1, Hp2, Hp3.
  destruct r3; reflexivity.
Qed.

(** C9. With eleven labels on the page and the button clicked, the form
    shows one field per label, in label order, and makes exactly one POST, to
    [/predict], whose body has the two fields "model_name" (the selected
    model) and "intensities" (the eleven field values, in field order).
    Untouched fields send 0.0: there is no check on the values. *)
Theorem form_posts_once (w : world) (wavelength_labels : list value)
    (selected_model : value) (st : store) :
  List.length wavelength_labels = 11%nat ->
  button_clicked w = true ->
  let input_intensities :=
    map (fun i => match number_input_state w ("intensity_" ++ dec_nat i) with
                  | Some x => x
                  | None => zero
                  end) (seq 0 11) in
  posts (trace_of (form w wavelength_labels selected_model) st)
    = [(API_BASE_URL ++ "/predict",
        VDict [("model_name", selected_model);
               ("intensities", VList (map VFloat input_intensities))])]
  /\ List.length input_intensities = 11%nat
  /\ (exists tr,
        trace_of (form w wavelength_labels selected_model) st
          = ([StSubheader "각 파장에서의 빛의 세기(Intensity) 입력:"; StColumns 4]
             ++ map (fun i => StNumberInput (i mod 4)%nat
                                (py_str (nth i wavelength_labels VNone))
                                zero "%.2f" ("intensity_" ++ dec_nat i)) (seq 0 11)
             ++ [StButton "전자 온도 예측하기"] ++ tr)%list)
  /\ ((forall key, number_input_state w key = None) ->
      input_intensities = repeat zero 11).
Proof.
  intros Hlen Hclick input_intensities.
  pose proof (form_trace w wavelength_labels selected_model st Hlen Hclick) as Hform.
  pose proof (predict_posts w selected_model input_intensities st) as Hposts.
  cbv zeta in Hform. fold input_intensities in Hform.
  unfold trace_of in *. rewrite Hform.
  destruct (predict w selected_model input_intensities st) as [[tr st'] r].
  cbn [fst] in *. split; [| split; [| split]].
  - rewrite !posts_app, Hposts. reflexivity.
  - reflexivity.
  - eexists. reflexivity.
  - intros Hnone. subst input_intensities. simpl. rewrite !Hnone. reflexivity.
Qed.

End Facts.

(** * Runs on the sample inputs *)

(** A numeric header: the eleven wavelengths come back as floats. *)
Lemma load_wavelengths_eleven_cells_numeric :
  read_csv Inputs.healthy Inputs.labels_path = Frame Inputs.numeric_header
  /\ load_wavelengths (py := Sample.interp) Inputs.healthy Inputs.labels_path empty_store
     = ([PdReadCsv Inputs.labels_path], empty_store,
        Ok (Some (map VFloat Inputs.wavelengths))).
Proof.
  split; [reflexivity |].
  apply (proj1 (load_wavelengths_eleven_cells (py := Sample.interp) Inputs.healthy
                  Inputs.labels_path (VStr "Te") (tl Inputs.numeric_header) empty_store
                  eq_refl eq_refl)).
  repeat (constructor; [vm_compute; reflexivity |]). constructor.
Defined.

(** A header mixing numbers and names has 11 cells after the first, one of
    them text that is no float; the loader returns the cells as read, and the
    numbers among them are floats, not strings. *)
Lemma load_wavelengths_mixed_header_keeps_numbers :
  read_csv Inputs.mixed Inputs.labels_path = Frame Inputs.mixed_header
  /\ List.length (tl Inputs.mixed_header) = 11%nat
  /\ float_of_string (Interp := Sample.interp) "Ha" = None
  /\ result_of (load_wavelengths (py := Sample.interp) Inputs.mixed Inputs.labels_path)
       empty_store
     = Ok (Some [VFloat (Inputs.float_of "656.3"); VStr "Ha";
                 VFloat (Inputs.float_of "486.1"); VStr "Hb";
                 VFloat (Inputs.float_of "434.0"); VStr "Hg";
                 VFloat (Inputs.float_of "410.2"); VStr "Hd";
                 VFloat (Inputs.float_of "397.0"); VStr "He";
                 VFloat (Inputs.float_of "388.9")])
  /\ ~ (exists raw : list string,
          result_of (load_wavelengths (py := Sample.interp) Inputs.mixed
                       Inputs.labels_path) empty_store
          = Ok (Some (map VStr raw))).
Proof.
  assert (Hrun : result_of (load_wavelengths (py := Sample.interp) Inputs.mixed
                              Inputs.labels_path) empty_store
                 = Ok (Some [VFloat (Inputs.float_of "656.3"); VStr "Ha";
                             VFloat (Inputs.float_of "486.1"); VStr "Hb";
                             VFloat (Inputs.float_of "434.0"); VStr "Hg";
                             VFloat (Inputs.float_of "410.2"); VStr "Hd";
                             VFloat (Inputs.float_of "397.0"); VStr "He";
                             VFloat (Inputs.float_of "388.9")]))
    by (vm_compute; reflexivity).
  repeat split; try (vm_compute; reflexivity); try exact Hrun.
  intros [raw Hraw]. rewrite Hrun in Hraw.
  destruct raw as [| s raw]; simpl in Hraw; discriminate Hraw.
Qed.

(** The label file is missing: a warning and the labels "파장 1" to "파장 11". *)
Lemma load_wavelengths_placeholders_missing_file :
  read_csv Inputs.offline Inputs.labels_path = ReadFailed Inputs.no_such_file
  /\ load_wavelengths (py := Sample.interp) Inputs.offline Inputs.labels_path empty_store
     = ([PdReadCsv Inputs.labels_path;
         StWarning ("'" ++ Inputs.labels_path ++ "' 파일 찾기 실패. 기본 레이블 사용.")],
        empty_store,
        Ok (Some [VStr "파장 1"; VStr "파장 2"; VStr "파장 3"; VStr "파장 4";
                  VStr "파장 5"; VStr "파장 6"; VStr "파장 7"; VStr "파장 8";
                  VStr "파장 9"; VStr "파장 10"; VStr "파장 11"])).
Proof.
  split; [reflexivity |].
  exact (proj1 (load_wavelengths_placeholders (py := Sample.interp) Inputs.offline
                  Inputs.labels_path empty_store) Inputs.no_such_file eq_refl).
Defined.

(** The labels returned for a missing file are not "Wavelength 1" to
    "Wavelength 11". *)
Lemma load_wavelengths_missing_file_not_english :
  read_csv Inputs.offline Inputs.labels_path = ReadFailed Inputs.no_such_file
  /\ isinstance Inputs.no_such_file FileNotFoundError = true
  /\ result_of (load_wavelengths (py := Sample.interp) Inputs.offline Inputs.labels_path)
       empty_store
     <> Ok (Some [VStr "Wavelength 1"; VStr "Wavelength 2"; VStr "Wavelength 3";
                  VStr "Wavelength 4"; VStr "Wavelength 5"; VStr "Wavelength 6";
                  VStr "Wavelength 7"; VStr "Wavelength 8"; VStr "Wavelength 9";
                  VStr "Wavelength 10"; VStr "Wavelength 11"]).
Proof.
  repeat split. vm_compute. discriminate.
Qed.

(** Ten labels in the file: an error, no labels, and a page without the form. *)
Lemma load_wavelengths_wrong_count_ten :
  List.length (tl Inputs.short_header) = 10%nat
  /\ load_wavelengths (py := Sample.interp) Inputs.short Inputs.labels_path empty_store
     = ([PdReadCsv Inputs.labels_path;
         StError "파장 데이터 로딩 오류: 11개 파장이 아닙니다."],
        empty_store, Ok None).
Proof.
  split; [reflexivity |].
  apply (proj1 (load_wavelengths_wrong_count (py := Sample.interp) Inputs.short
                  Inputs.labels_path Inputs.short_header eq_refl eq_refl
                  ltac:(discriminate))).
Defined.

(** Ten labels in the file: the result is None, not the placeholder labels. *)
Lemma load_wavelengths_ten_labels_no_fallback :
  read_csv Inputs.short Inputs.labels_path = Frame Inputs.short_header
  /\ List.length (tl Inputs.short_header) = 10%nat
  /\ result_of (load_wavelengths (py := Sample.interp) Inputs.short Inputs.labels_path)
       empty_store = Ok None
  /\ result_of (load_wavelengths (py := Sample.interp) Inputs.short Inputs.labels_path)
       empty_store <> Ok (Some placeholder_labels).
Proof.
  repeat split. vm_compute. discriminate.
Qed.

Lemma wavelength_labels_length_ten :
  result_of (load_wavelengths (py := Sample.interp) Inputs.short Inputs.labels_path)
    empty_store = Ok None.
Proof.
  apply (proj1 (wavelength_labels_length (py := Sample.interp) Inputs.short
                  Inputs.labels_path Inputs.short_header empty_store eq_refl eq_refl
                  ltac:(discriminate))).
Defined.

(** [[{"name":"a.model"},{"name":"b.model"}]] gives ["latest", "a.model", "b.model"]. *)
Lemma get_available_models_names_two :
  get_available_models (py := Sample.interp) Inputs.healthy empty_store
    = ([HttpGet "http://127.0.0.1:8000/models"], empty_store,
       Ok [VStr "latest"; VStr "a.model"; VStr "b.model"]).
Proof.
  apply (get_available_models_names (py := Sample.interp) Inputs.healthy
           (mk_Response 200 "OK" Inputs.models_url (Ok Inputs.two_models))
           [VDict [("name", VStr "a.model")]; VDict [("name", VStr "b.model")]]
           ["a.model"; "b.model"] empty_store eq_refl).
  - simpl. lia.
  - reflexivity.
  - repeat (constructor; [eexists; split; reflexivity |]). constructor.
Defined.

(** A 200 answer with body [[{"id": 1}]]: the KeyError leaves the lister, and
    with it the run of the script. *)
Lemma get_available_models_nameless_raises :
  get_available_models (py := Sample.interp) Inputs.nameless empty_store
    = ([HttpGet "http://127.0.0.1:8000/models"], empty_store,
       Raise (mk_exn KeyError "'name'"))
  /\ result_of (script (py := Sample.interp) Inputs.nameless) empty_store
     = Raise (mk_exn KeyError "'name'").
Proof.
  split; [| reflexivity].
  apply (get_available_models_key_error (py := Sample.interp) Inputs.nameless
           (mk_Response 200 "OK" Inputs.models_url (Ok Inputs.nameless_models))
           [] [("id", VInt 1)] [] empty_store eq_refl).
  - simpl. lia.
  - reflexivity.
  - constructor.
  - reflexivity.
Defined.


(** HTTP 400 with body [{"detail":"bad input"}]: the failure, then "bad input". *)
Lemma predict_failure_bad_input :
  trace_of (predict (py := Sample.interp) Inputs.rejected (VStr "latest") (repeat zero 11))
    empty_store
  = [StInfo "API 서버에 예측 요청 중...";
     HttpPost "http://127.0.0.1:8000/predict"
       (predict_payload (VStr "latest") (repeat zero 11));
     StError "API 호출 실패: 400 Client Error: Bad Request for url: http://127.0.0.1:8000/predict";
     StError "서버 응답: bad input"].
Proof.
  apply (proj1 (proj2 (proj2
           (predict_failure (py := Sample.interp) Inputs.rejected (VStr "latest")
              (repeat zero 11) empty_store
              {| response := Some (mk_Response 400 "Bad Request" Inputs.predict_url
                                     (Ok Inputs.bad_input)) |}
              [StInfo "API 서버에 예측 요청 중...";
               HttpPost "http://127.0.0.1:8000/predict"
                 (predict_payload (VStr "latest") (repeat zero 11))]
              (mk_exn HTTPError
                 "400 Client Error: Bad Request for url: http://127.0.0.1:8000/predict")
              eq_refl eq_refl)))
           (mk_Response 400 "Bad Request" Inputs.predict_url (Ok Inputs.bad_input))
           [("detail", VStr "bad input")] (VStr "bad input") eq_refl eq_refl eq_refl).
Defined.

(** All fields untouched, button clicked: one POST with eleven 0.0. *)
Lemma form_posts_once_defaults :
  posts (trace_of (form (py := Sample.interp) Inputs.offline placeholder_labels
                     (VStr "latest")) empty_store)
  = [("http://127.0.0.1:8000/predict",
      VDict [("model_name", VStr "latest");
             ("intensities", VList (repeat (VFloat zero) 11))])].
Proof.
  apply (proj1 (form_posts_once (py := Sample.interp) Inputs.offline placeholder_labels
                  (VStr "latest") empty_store eq_refl eq_refl)).
Defined.

(** The server is down: one failure message, and the handler returns. *)
Lemma predict_unbound_response_refused :
  predict (py := Sample.interp) Inputs.offline (VStr "latest") (repeat zero 11) empty_store
  = ([StInfo "API 서버에 예측 요청 중...";
      HttpPost "http://127.0.0.1:8000/predict"
        (predict_payload (VStr "latest") (repeat zero 11));
      StError "API 호출 실패: HTTPConnectionPool(host='127.0.0.1', port=8000): Max retries exceeded"],
     empty_store, Ok tt).
Proof.
  apply (proj1 (predict_unbound_response (py := Sample.interp) Inputs.offline
                  (VStr "latest") (repeat zero 11) Inputs.connection_refused eq_refl)).
Defined.

(** HTTP 500 with a body that is not JSON: the failure alone. *)
Example predict_failure_not_json :
  predict (py := Sample.interp) Inputs.broken (VStr "latest") (repeat zero 11) empty_store
  = ([StInfo "API 서버에 예측 요청 중...";
      HttpPost "http://127.0.0.1:8000/predict"
        (predict_payload (VStr "latest") (repeat zero 11));
      StError "API 호출 실패: 500 Server Error: Internal Server Error for url: http://127.0.0.1:8000/predict"],
     {| response := Some (mk_Response 500 "Internal Server Error" Inputs.predict_url
                            (Raise Inputs.not_json)) |},
     Ok tt).
Proof. reflexivity. Qed.

(** No server at all: the page still shows the form, with "latest" alone in
    the select box and the placeholder labels. *)
Example script_offline :
  result_of (script (py := Sample.interp) Inputs.offline) empty_store = Ok tt
  /\ posts (trace_of (script (py := Sample.interp) Inputs.offline) empty_store)
     = [("http://127.0.0.1:8000/predict",
         VDict [("model_name", VStr "latest");
                ("intensities", VList (repeat (VFloat zero) 11))])].
Proof. split; vm_compute; reflexivity. Qed.

(** * More of the script *)

Section Coverage.
Context `{py : Interp}.

(** ** Reading a trace *)

Lemma gets_app (a b : list event) : gets (a ++ b) = (gets a ++ gets b)%list.
Proof. apply flat_map_app. Qed.

Lemma reads_app (a b : list event) : reads (a ++ b) = (reads a ++ reads b)%list.
Proof. apply flat_map_app. Qed.

Lemma fields_app (a b : list event) : fields (a ++ b) = (fields a ++ fields b)%list.
Proof. apply flat_map_app. Qed.

(** Messages are no request, no read and no field. *)
Lemma messages_silent (tr : list event) :
  forallb is_message tr = true ->
  posts tr = [] /\ gets tr = [] /\ reads tr = [] /\ fields tr = [].
Proof.
  induction tr as [| ev tr IH]; simpl; [auto |].
  destruct ev; simpl; try discriminate; exact IH.
Qed.

(** ** The predict handler, whatever the answer *)

(** The [try] block shows a notice, makes the request, and then shows at
    most the success and the caption. *)
Lemma predict_request_shape (w : world) (selected_model : value)
    (input_intensities : list pyfloat) (st : store) :
  exists shown st' r,
    predict_request w selected_model input_intensities st
      = (StInfo "API 서버에 예측 요청 중..."
         :: HttpPost (API_BASE_URL ++ "/predict")
              (predict_payload selected_model input_intensities)
         :: shown, st', r)
    /\ forallb is_message shown = true.
Proof.
  destruct (requests_post w (API_BASE_URL ++ "/predict")
              (predict_payload selected_model input_intensities)) as [e | r] eqn:Hpost.
  - rewrite (predict_request_network_failure w _ _ st e Hpost).
    exists [], st, (Raise e). split; reflexivity.
  - rewrite (predict_request_responded w _ _ st r Hpost). cbv zeta.
    destruct (raise_for_status r); [| do 3 eexists; split; reflexivity].
    destruct (json_result r) as [result |]; [| do 3 eexists; split; reflexivity].
    destruct (py_getitem result "predicted_te") as [predicted_te |];
      [| do 3 eexists; split; reflexivity].
    destruct (format_4f predicted_te); [| do 3 eexists; split; reflexivity].
    destruct (py_getitem result "model_used"); do 3 eexists; split; reflexivity.
Qed.

(** The [except] clauses turn every exception of the [try] block into
    messages. *)
Lemma predict_after_try (w : world) (selected_model : value)
    (input_intensities : list pyfloat) (st st' : store) (tr : list event)
    (r : result unit) :
  predict_request w selected_model input_intensities st = (tr, st', r) ->
  exists shown,
    predict w selected_model input_intensities st = ((tr ++ shown)%list, st', Ok tt)
    /\ forallb is_message shown = true.
Proof.
  intros Htry. destruct r as [[] | e].
  - exists []. split; [| reflexivity].
    unfold predict, try_except. rewrite Htry, app_nil_r. reflexivity.
  - destruct (isinstance e RequestException) eqn:Hcls.
    + rewrite (predict_handles_request_exception w _ _ st st' tr e Htry Hcls).
      eexists. split; [reflexivity |].
      destruct (response st') as [r |]; [| reflexivity].
      destruct (json_result r) as [[| b | n | x | s | xs | body] |]; reflexivity.
    + rewrite (predict_handles_other_exception w _ _ st st' tr e Htry Hcls).
      eexists. split; reflexivity.
Qed.

Lemma predict_run (w : world) (selected_model : value)
    (input_intensities : list pyfloat) (st : store) :
  exists shown st',
    predict w selected_model input_intensities st
      = (StInfo "API 서버에 예측 요청 중..."
         :: HttpPost (API_BASE_URL ++ "/predict")
              (predict_payload selected_model input_intensities)
         :: shown, st', Ok tt)
    /\ forallb is_message shown = true.
Proof.
  destruct (predict_request_shape w selected_model input_intensities st)
    as (shown & st' & r & Htry & Hshown).
  destruct (predict_after_try w _ _ st st' _ r Htry) as (shown' & Hrun & Hshown').
  exists (shown ++ shown')%list, st'. split; [exact Hrun |].
  rewrite forallb_app, Hshown, Hshown'. reflexivity.
Qed.

(** Looking a key up and formatting raise built-in errors, never a
    RequestException. *)
Lemma py_getitem_not_request (v : value) (key : string) (e : exn) :
  py_getitem v key = Raise e -> isinstance e RequestException = false.
Proof.
  destruct v as [| b | n | x | s | xs | kvs]; simpl; unfold interp_error, rejected;
    try (intros [= <-]; reflexivity).
  destruct (dict_lookup key kvs); [discriminate | intros [= <-]; reflexivity].
Qed.

Lemma format_4f_not_request (v : value) (e : exn) :
  format_4f v = Raise e -> isinstance e RequestException = false.
Proof.
  destruct v as [| b | n | x | s | xs | kvs]; simpl; unfold interp_error, rejected;
    try discriminate; try (intros [= <-]; reflexivity).
  destruct (float_of_int n); [discriminate | intros [= <-]; reflexivity].
Qed.

(** X1. The handler lets no exception out: whatever [requests.post] does
    and whatever the answer holds, it ends normally; it shows the notice,
    makes the request, then shows one or two messages; and [response] is
    bound to the answer exactly when there was one. *)
Theorem predict_always_returns (w : world) (selected_model : value)
    (input_intensities : list pyfloat) (st : store) :
  exists shown,
    predict w selected_model input_intensities st
      = (StInfo "API 서버에 예측 요청 중..."
         :: HttpPost (API_BASE_URL ++ "/predict")
              (predict_payload selected_model input_intensities)
         :: shown,
         match requests_post w (API_BASE_URL ++ "/predict")
                 (predict_payload selected_model input_intensities) with
         | Responded r => {| response := Some r |}
         | Failed _ => st
         end,
         Ok tt)
    /\ forallb is_message shown = true
    /\ (1 <= List.length shown <= 2)%nat.
Proof.
  unfold predict, try_except.
  destruct (requests_post w (API_BASE_URL ++ "/predict")
              (predict_payload selected_model input_intensities)) as [e | r] eqn:Hpost.
  - rewrite (predict_request_network_failure w _ _ st e Hpost).
    unfold show_server_detail, load_response.
    destruct (isinstance e RequestException); simpl;
      [| eexists; repeat split; simpl; lia].
    destruct (response st) as [r |]; simpl; [| eexists; repeat split; simpl; lia].
    destruct (json_result r) as [[| b | n | x | s | xs | body] | e']; simpl;
      try (eexists; repeat split; simpl; lia).
    destruct (dict_lookup "detail" body); eexists; repeat split; simpl; lia.
  - rewrite (predict_request_responded w _ _ st r Hpost). cbv zeta.
    unfold show_server_detail, load_response.
    destruct (raise_for_status r) as [[] | e].
    + destruct (json_result r) as [result | e] eqn:Hjson.
      * destruct (py_getitem result "predicted_te") as [predicted_te | e] eqn:Hte.
        -- destruct (format_4f predicted_te) as [te | e] eqn:Hfmt.
           ++ destruct (py_getitem result "model_used") as [model_used | e] eqn:Hmodel.
              ** eexists; repeat split; simpl; lia.
              ** rewrite (py_getitem_not_request _ _ _ Hmodel). simpl.
                 eexists; repeat split; simpl; lia.
           ++ rewrite (format_4f_not_request _ _ Hfmt). simpl.
              eexists; repeat split; simpl; lia.
        -- rewrite (py_getitem_not_request _ _ _ Hte). simpl.
           eexists; repeat split; simpl; lia.
      * destruct (isinstance e RequestException); simpl; rewrite ?Hjson; simpl;
          eexists; repeat split; simpl; lia.
    + destruct (isinstance e RequestException); simpl;
        [| eexists; repeat split; simpl; lia].
      destruct (json_result r) as [[| b | n | x | s | xs | body] | e']; simpl;
        try (eexists; repeat split; simpl; lia).
      destruct (dict_lookup "detail" body); eexists; repeat split; simpl; lia.
Qed.

(** X2. A 2xx answer whose JSON object has no "predicted_te": nothing is
    shown as a result; the KeyError is reported as an unexpected error and
    the handler ends normally. *)
Theorem predict_missing_temperature (w : world) (selected_model : value)
    (input_intensities : list pyfloat) (st : store) (r : Response)
    (body : list (string * value)) :
  requests_post w (API_BASE_URL ++ "/predict")
    (predict_payload selected_model input_intensities) = Responded r ->
  200 <= status_code r < 300 ->
  json_result r = Ok (VDict body) ->
  dict_lookup "predicted_te" body = None ->
  predict w selected_model input_intensities st
    = ([StInfo "API 서버에 예측 요청 중...";
        HttpPost (API_BASE_URL ++ "/predict")
          (predict_payload selected_model input_intensities);
        StError ("예측 처리 중 예상치 못한 오류 발생: "
                   ++ error_text KeyError (VStr "predicted_te"))],
       {| response := Some r |}, Ok tt).
Proof.
  intros Hpost Hstatus Hjson Hte.
  pose proof (predict_request_responded w _ _ st r Hpost) as Htry.
  rewrite (raise_for_status_ok r ltac:(lia)), Hjson in Htry. simpl in Htry.
  rewrite Hte in Htry.
  rewrite (predict_handles_other_exception w _ _ st _ _ _ Htry eq_refl).
  reflexivity.
Qed.

(** X3. A 2xx answer with a float under "predicted_te" and no
    "model_used": the temperature is already on the page when the KeyError
    comes; it stays, followed by the unexpected-error message, and no caption
    is shown. *)
Theorem predict_missing_model (w : world) (selected_model : value)
    (input_intensities : list pyfloat) (st : store) (r : Response)
    (body : list (string * value)) (predicted_te : pyfloat) :
  requests_post w (API_BASE_URL ++ "/predict")
    (predict_payload selected_model input_intensities) = Responded r ->
  200 <= status_code r < 300 ->
  json_result r = Ok (VDict body) ->
  dict_lookup "predicted_te" body = Some (VFloat predicted_te) ->
  dict_lookup "model_used" body = None ->
  predict w selected_model input_intensities st
    = ([StInfo "API 서버에 예측 요청 중...";
        HttpPost (API_BASE_URL ++ "/predict")
          (predict_payload selected_model input_intensities);
        StSuccess ("예측된 전자 온도 (Te): " ++ fixed4 predicted_te ++ " (eV?)");
        StError ("예측 처리 중 예상치 못한 오류 발생: "
                   ++ error_text KeyError (VStr "model_used"))],
       {| response := Some r |}, Ok tt).
Proof.
  intros Hpost Hstatus Hjson Hte Hmodel.
  pose proof (predict_request_responded w _ _ st r Hpost) as Htry.
  rewrite (raise_for_status_ok r ltac:(lia)), Hjson in Htry. simpl in Htry.
  rewrite Hte in Htry. simpl in Htry. rewrite Hmodel in Htry.
  rewrite (predict_handles_other_exception w _ _ st _ _ _ Htry eq_refl).
  reflexivity.
Qed.

(** X4. A 2xx answer whose "predicted_te" is a string or null: the format
    spec [.4f] rejects it (ValueError for a string, TypeError for null), and
    the message of that rejection, the one [format] words, is reported as an
    unexpected error; no temperature is shown. *)
Theorem predict_temperature_not_a_number (w : world) (selected_model : value)
    (input_intensities : list pyfloat) (st : store) (r : Response)
    (body : list (string * value)) (predicted_te : value) :
  requests_post w (API_BASE_URL ++ "/predict")
    (predict_payload selected_model input_intensities) = Responded r ->
  200 <= status_code r < 300 ->
  json_result r = Ok (VDict body) ->
  dict_lookup "predicted_te" body = Some predicted_te ->
  (exists s, predicted_te = VStr s) \/ predicted_te = VNone ->
  predict w selected_model input_intensities st
    = ([StInfo "API 서버에 예측 요청 중...";
        HttpPost (API_BASE_URL ++ "/predict")
          (predict_payload selected_model input_intensities);
        StError ("예측 처리 중 예상치 못한 오류 발생: "
                   ++ rejection_text (Format ".4f") predicted_te)],
       {| response := Some r |}, Ok tt)
  /\ format_4f predicted_te
     = Raise (mk_exn (match predicted_te with
                      | VStr _ => ValueError
                      | _ => TypeError
                      end)
                (rejection_text (Format ".4f") predicted_te)).
Proof.
  intros Hpost Hstatus Hjson Hte Hkind.
  pose proof (predict_request_responded w _ _ st r Hpost) as Htry.
  rewrite (raise_for_status_ok r ltac:(lia)), Hjson in Htry. simpl in Htry.
  rewrite Hte in Htry.
  destruct Hkind as [[s ->] | ->]; simpl in Htry;
    rewrite (predict_handles_other_exception w _ _ st _ _ _ Htry eq_refl);
    split; reflexivity.
Qed.

(** X5. An answer whose status passes but whose body does not decode: one
    message and no result.  When the decoding error is a RequestException the
    message is the API failure, and the second reading of the body, failing
    the same way, adds nothing; otherwise it is the unexpected error. *)
Theorem predict_undecodable_answer (w : world) (selected_model : value)
    (input_intensities : list pyfloat) (st : store) (r : Response) (e : exn) :
  requests_post w (API_BASE_URL ++ "/predict")
    (predict_payload selected_model input_intensities) = Responded r ->
  200 <= status_code r < 300 ->
  json_result r = Raise e ->
  predict w selected_model input_intensities st
    = ([StInfo "API 서버에 예측 요청 중...";
        HttpPost (API_BASE_URL ++ "/predict")
          (predict_payload selected_model input_intensities);
        StError (if isinstance e RequestException
                 then "API 호출 실패: " ++ exn_str e
                 else "예측 처리 중 예상치 못한 오류 발생: " ++ exn_str e)],
       {| response := Some r |}, Ok tt).
Proof.
  intros Hpost Hstatus Hjson.
  pose proof (predict_request_responded w _ _ st r Hpost) as Htry.
  rewrite (raise_for_status_ok r ltac:(lia)), Hjson in Htry. simpl in Htry.
  destruct (isinstance e RequestException) eqn:Hcls.
  - rewrite (predict_handles_request_exception w _ _ st _ _ _ Htry Hcls).
    simpl. rewrite Hjson. reflexivity.
  - rewrite (predict_handles_other_exception w _ _ st _ _ _ Htry Hcls).
    reflexivity.
Qed.

(** X6. A 4xx or 5xx answer whose JSON object has no "detail": after the
    failure the handler shows the default text "상세 정보 없음". *)
Theorem predict_error_without_detail (w : world) (selected_model : value)
    (input_intensities : list pyfloat) (st : store) (r : Response)
    (body : list (string * value)) :
  requests_post w (API_BASE_URL ++ "/predict")
    (predict_payload selected_model input_intensities) = Responded r ->
  400 <= status_code r < 600 ->
  json_result r = Ok (VDict body) ->
  dict_lookup "detail" body = None ->
  exists text,
    raise_for_status r = Raise (mk_exn HTTPError text)
    /\ predict w selected_model input_intensities st
       = ([StInfo "API 서버에 예측 요청 중...";
           HttpPost (API_BASE_URL ++ "/predict")
             (predict_payload selected_model input_intensities);
           StError ("API 호출 실패: " ++ text);
           StError "서버 응답: 상세 정보 없음"],
          {| response := Some r |}, Ok tt).
Proof.
  intros Hpost Hstatus Hjson Hdetail.
  destruct (raise_for_status_error r Hstatus) as (text & Hraise & _).
  exists text. split; [exact Hraise |].
  pose proof (predict_request_responded w _ _ st r Hpost) as Htry.
  rewrite Hraise in Htry. simpl in Htry.
  rewrite (predict_handles_request_exception w _ _ st _ _ _ Htry eq_refl).
  simpl. rewrite Hjson, Hdetail. reflexivity.
Qed.

(** ** The lister, whatever the answer *)

(** The [try] block makes the GET and nothing else; when it returns a list,
    "latest" is its head. *)
Lemma get_available_models_try_run (w : world) (st : store) :
  exists r,
    get_available_models_try w st = ([HttpGet (API_BASE_URL ++ "/models")], st, r)
    /\ (forall models, r = Ok models -> exists rest, models = VStr "latest" :: rest).
Proof.
  unfold get_available_models_try, requests_get_. simpl.
  destruct (requests_get w _) as [e | r]; simpl;
    [eexists; split; [reflexivity | discriminate] |].
  destruct (raise_for_status r) as [[] | e]; simpl;
    [| eexists; split; [reflexivity | discriminate]].
  destruct (json_result r) as [models | e]; simpl;
    [| eexists; split; [reflexivity | discriminate]].
  destruct (py_iter models) as [items | e]; simpl;
    [| eexists; split; [reflexivity | discriminate]].
  destruct (comprehension_pure (fun m => py_getitem m "name") items st)
    as (res & Hres & _).
  rewrite Hres. destruct res as [names | e]; simpl.
  - eexists. split; [reflexivity |]. intros ? [= <-]. eexists. reflexivity.
  - eexists. split; [reflexivity | discriminate].
Qed.

Lemma get_available_models_run (w : world) (st : store) :
  exists shown r,
    get_available_models w st = (HttpGet (API_BASE_URL ++ "/models") :: shown, st, r)
    /\ forallb is_message shown = true
    /\ (forall models, r = Ok models -> exists rest, models = VStr "latest" :: rest).
Proof.
  destruct (get_available_models_try_run w st) as (r & Htry & Hhead).
  unfold get_available_models, try_except. rewrite Htry.
  destruct r as [models | e].
  - exists [], (Ok models). repeat split. exact Hhead.
  - destruct (isinstance e RequestException); simpl.
    + eexists _, _. repeat split. intros ? [= <-]. eexists. reflexivity.
    + exists [], (Raise e). repeat split. discriminate.
Qed.

(** X7. The lister makes exactly one call, the GET to [/models], and binds
    nothing.  It either shows nothing, or shows one error and returns
    ["latest"]; and every list it returns starts with "latest", so the select
    box is never empty. *)
Theorem get_available_models_shape (w : world) (st : store) :
  exists shown r,
    get_available_models w st = (HttpGet (API_BASE_URL ++ "/models") :: shown, st, r)
    /\ (shown = [] \/ exists text, shown = [StError text] /\ r = Ok [VStr "latest"])
    /\ (forall models, r = Ok models -> exists rest, models = VStr "latest" :: rest).
Proof.
  destruct (get_available_models_try_run w st) as (r & Htry & Hhead).
  unfold get_available_models, try_except. rewrite Htry.
  destruct r as [models | e].
  - exists [], (Ok models). split; [reflexivity |]. split; [left; reflexivity | exact Hhead].
  - destruct (isinstance e RequestException); simpl.
    + eexists _, _. split; [reflexivity |]. split.
      * right. eexists. split; reflexivity.
      * intros ? [= <-]. eexists. reflexivity.
    + exists [], (Raise e). split; [reflexivity |]. split; [left; reflexivity | discriminate].
Qed.

(** X8. When [requests.get] itself raises a RequestException (no
    connection, a timeout), the lister reports it and returns ["latest"]. *)
Theorem get_available_models_unreachable (w : world) (st : store) (e : exn) :
  requests_get w (API_BASE_URL ++ "/models") = Failed e ->
  isinstance e RequestException = true ->
  get_available_models w st
    = ([HttpGet (API_BASE_URL ++ "/models");
        StError ("API 서버에서 모델 목록을 가져오는 데 실패했습니다: " ++ exn_str e)],
       st, Ok [VStr "latest"]).
Proof.
  intros Hget Hcls.
  apply (get_available_models_fallback w st st [HttpGet (API_BASE_URL ++ "/models")] e);
    [| exact Hcls].
  unfold get_available_models_try, requests_get_. simpl in Hget |- *.
  rewrite Hget. reflexivity.
Qed.

(** X9. A 4xx or 5xx answer to the GET, whatever its body: the lister
    reports the HTTPError of [raise_for_status] and returns ["latest"]; the
    body is not read. *)
Theorem get_available_models_http_error (w : world) (st : store) (r : Response) :
  requests_get w (API_BASE_URL ++ "/models") = Responded r ->
  400 <= status_code r < 600 ->
  exists text,
    raise_for_status r = Raise (mk_exn HTTPError text)
    /\ get_available_models w st
       = ([HttpGet (API_BASE_URL ++ "/models");
           StError ("API 서버에서 모델 목록을 가져오는 데 실패했습니다: " ++ text)],
          st, Ok [VStr "latest"]).
Proof.
  intros Hget Hstatus.
  destruct (raise_for_status_error r Hstatus) as (text & Hraise & _).
  exists text. split; [exact Hraise |].
  apply (get_available_models_fallback w st st [HttpGet (API_BASE_URL ++ "/models")]
           (mk_exn HTTPError text)); [| reflexivity].
  unfold get_available_models_try, requests_get_. simpl in Hget |- *.
  rewrite Hget. simpl. rewrite Hraise. reflexivity.
Qed.

(** X10. A 2xx answer to the GET whose body does not decode: when the
    decoding error is a RequestException the lister reports it and returns
    ["latest"]; any other decoding error leaves the lister. *)
Theorem get_available_models_undecodable (w : world) (st : store) (r : Response)
    (e : exn) :
  requests_get w (API_BASE_URL ++ "/models") = Responded r ->
  200 <= status_code r < 300 ->
  json_result r = Raise e ->
  get_available_models w st
    = if isinstance e RequestException
      then ([HttpGet (API_BASE_URL ++ "/models");
             StError ("API 서버에서 모델 목록을 가져오는 데 실패했습니다: "
                        ++ exn_str e)],
            st, Ok [VStr "latest"])
      else ([HttpGet (API_BASE_URL ++ "/models")], st, Raise e).
Proof.
  intros Hget Hstatus Hjson.
  assert (Htry : get_available_models_try w st
                 = ([HttpGet (API_BASE_URL ++ "/models")], st, Raise e)).
  { unfold get_available_models_try, requests_get_. simpl in Hget |- *.
    rewrite Hget. simpl. rewrite (raise_for_status_ok r ltac:(lia)). simpl.
    rewrite Hjson. reflexivity. }
  destruct (isinstance e RequestException) eqn:Hcls.
  - exact (get_available_models_fallback w st st _ e Htry Hcls).
  - exact (get_available_models_propagates w st st _ e Htry Hcls).
Qed.

(** ** The loader, whatever the file *)

Lemma load_wavelengths_run (w : world) (filename : string) (st : store) :
  exists shown labels,
    load_wavelengths w filename st = (PdReadCsv filename :: shown, st, Ok labels)
    /\ forallb is_message shown = true.
Proof.
  destruct (read_csv w filename) as [e | row] eqn:Hcsv.
  - rewrite (load_wavelengths_read_failed w filename st e Hcsv).
    eexists _, _. split; reflexivity.
  - destruct (comprehension_pure py_float (tl row) st) as (r & Hr & _).
    pose proof (load_wavelengths_try_frame w filename row st r Hcsv Hr) as Htry.
    destruct r as [xs | e].
    + unfold load_wavelengths, try_except. rewrite Htry.
      destruct (List.length xs =? 11)%nat; eexists _, _; split; reflexivity.
    + destruct (isinstance e ValueError).
      * unfold load_wavelengths, try_except. rewrite Htry.
        destruct (List.length (tl row) =? 11)%nat; eexists _, _; split; reflexivity.
      * rewrite (load_wavelengths_handles w filename st st _ e Htry).
        eexists _, _. split; reflexivity.
Qed.

(** X11. The body of the loader, which is what runs when the cache of
    [@st.cache_data] misses, lets no exception out and binds nothing.  It
    reads the file once and then does one of three things: returns 11 labels
    and shows nothing; shows the count error and returns None; or shows one
    warning and returns the placeholder labels. *)
Theorem load_wavelengths_outcomes (w : world) (filename : string) (st : store) :
  exists shown labels,
    load_wavelengths w filename st = (PdReadCsv filename :: shown, st, Ok labels)
    /\ ((shown = [] /\ exists l, labels = Some l /\ List.length l = 11%nat)
        \/ (shown = [StError "파장 데이터 로딩 오류: 11개 파장이 아닙니다."]
            /\ labels = None)
        \/ (exists text, shown = [StWarning text]
            /\ labels = Some placeholder_labels)).
Proof.
  destruct (read_csv w filename) as [e | row] eqn:Hcsv.
  - rewrite (load_wavelengths_read_failed w filename st e Hcsv).
    eexists _, _. split; [reflexivity |]. right. right. eexists. split; reflexivity.
  - destruct (comprehension_pure py_float (tl row) st) as (r & Hr & _).
    pose proof (load_wavelengths_try_frame w filename row st r Hcsv Hr) as Htry.
    destruct r as [xs | e].
    + unfold load_wavelengths, try_except. rewrite Htry.
      destruct (List.length xs =? 11)%nat eqn:Hn; eexists _, _; (split; [reflexivity |]).
      * left. split; [reflexivity |]. eexists. split; [reflexivity |].
        rewrite length_map. apply Nat.eqb_eq, Hn.
      * right. left. split; reflexivity.
    + destruct (isinstance e ValueError).
      * unfold load_wavelengths, try_except. rewrite Htry.
        destruct (List.length (tl row) =? 11)%nat eqn:Hn; eexists _, _;
          (split; [reflexivity |]).
        -- left. split; [reflexivity |]. eexists. split; [reflexivity |].
           apply Nat.eqb_eq, Hn.
        -- right. left. split; reflexivity.
      * rewrite (load_wavelengths_handles w filename st st _ e Htry).
        eexists _, _. split; [reflexivity |]. right. right. eexists. split; reflexivity.
Qed.

(** ** The form and the page, whatever the click *)

(** The form with eleven labels: the fields, the button, and the handler
    when the button is clicked. *)
Lemma form_run (w : world) (wavelength_labels : list value) (selected_model : value)
    (st : store) :
  List.length wavelength_labels = 11%nat ->
  exists shown st',
    form w wavelength_labels selected_model st
      = (([StSubheader "각 파장에서의 빛의 세기(Intensity) 입력:"; StColumns 4]
          ++ map (fun i => StNumberInput (i mod 4)%nat
                             (py_str (nth i wavelength_labels VNone))
                             zero "%.2f" ("intensity_" ++ dec_nat i)) (seq 0 11)
          ++ [StButton "전자 온도 예측하기"] ++ shown)%list, st', Ok tt)
    /\ gets shown = [] /\ reads shown = [] /\ fields shown = []
    /\ posts shown
       = if button_clicked w
         then [(API_BASE_URL ++ "/predict",
                predict_payload selected_model
                  (map (fun i =>
                          match number_input_state w ("intensity_" ++ dec_nat i) with
                          | Some x => x
                          | None => zero
                          end) (seq 0 11)))]
         else [].
Proof.
  intros Hlen.
  destruct (button_clicked w) eqn:Hclick.
  - rewrite (form_trace w wavelength_labels selected_model st Hlen Hclick). cbv zeta.
    destruct (predict_run w selected_model
                (map (fun i => match number_input_state w ("intensity_" ++ dec_nat i) with
                               | Some x => x
                               | None => zero
                               end) (seq 0 11)) st)
      as (shown & st' & Hrun & Hshown).
    rewrite Hrun. eexists _, _. split; [reflexivity |].
    destruct (messages_silent shown Hshown) as (Hp & Hg & Hr & Hf).
    cbn [gets reads fields posts flat_map app].
    fold (gets shown). fold (reads shown). fold (fields shown). fold (posts shown).
    rewrite Hp, Hg, Hr, Hf. repeat split.
  - do 12 (destruct wavelength_labels as [| ? wavelength_labels]; try discriminate Hlen).
    unfold form, intensity_field, st_number_input, st_button. rewrite Hclick.
    exists [], st. repeat split.
Qed.

(** [if wavelength_labels: ... else: ...] on what the loader returns. *)
Lemma form_or_error_run (w : world) (labels : option (list value))
    (selected_model : value) (st : store) :
  (forall l, labels = Some l -> List.length l = 11%nat) ->
  exists shown st',
    form_or_error w labels selected_model st = (shown, st', Ok tt)
    /\ gets shown = [] /\ reads shown = []
    /\ fields shown
       = match labels with
         | Some l => map (fun i => ((i mod 4)%nat, py_str (nth i l VNone),
                                    "intensity_" ++ dec_nat i)) (seq 0 11)
         | None => []
         end
    /\ posts shown
       = match labels with
         | Some _ =>
             if button_clicked w
             then [(API_BASE_URL ++ "/predict",
                    predict_payload selected_model
                      (map (fun i =>
                              match number_input_state w ("intensity_" ++ dec_nat i) with
                              | Some x => x
                              | None => zero
                              end) (seq 0 11)))]
             else []
         | None => []
         end.
Proof.
  intros Hlen. destruct labels as [l |].
  - specialize (Hlen l eq_refl).
    destruct (form_run w l selected_model st Hlen)
      as (shown & st' & Hform & Hg & Hr & Hf & Hp).
    assert (Hbranch : form_or_error w (Some l) selected_model st
                      = form w l selected_model st).
    { destruct l; [discriminate Hlen | reflexivity]. }
    rewrite Hbranch, Hform. eexists _, _. split; [reflexivity |].
    rewrite !gets_app, !reads_app, !fields_app, !posts_app, Hg, Hr, Hf, Hp.
    repeat split.
  - exists [StError "파장 정보를 로드할 수 없어 입력을 진행할 수 없습니다."], st.
    repeat split.
Qed.

(** A run in which the lister raises stops there. *)
Lemma script_lister_raises (w : world) (st st' : store) (tr : list event) (e : exn) :
  get_available_models w st = (tr, st', Raise e) ->
  script w st
    = (StSetPageConfig "Te 예측기" "wide" :: StTitle "플라즈마 전자 온도 (Te) 예측" :: tr,
       st', Raise e).
Proof.
  intros Hget. unfold script. cbn -[form_or_error DATA_FILE_PATH].
  rewrite Hget. reflexivity.
Qed.

(** A run in which the lister returns goes through the loader and the form
    to the sidebar. *)
Lemma script_lister_returns (w : world) (st st' : store) (tr : list event)
    (models : list value) :
  get_available_models w st = (tr, st', Ok models) ->
  exists warned labels shown st'',
    forallb is_message warned = true
    /\ load_wavelengths w (DATA_FILE_PATH w) st'
       = (PdReadCsv (DATA_FILE_PATH w) :: warned, st', Ok labels)
    /\ form_or_error w labels (nth (selectbox_index w) models VNone) st'
       = (shown, st'', Ok tt)
    /\ gets shown = [] /\ reads shown = []
    /\ fields shown
       = match labels with
         | Some l => map (fun i => ((i mod 4)%nat, py_str (nth i l VNone),
                                    "intensity_" ++ dec_nat i)) (seq 0 11)
         | None => []
         end
    /\ posts shown
       = match labels with
         | Some _ =>
             if button_clicked w
             then [(API_BASE_URL ++ "/predict",
                    predict_payload (nth (selectbox_index w) models VNone)
                      (map (fun i =>
                              match number_input_state w ("intensity_" ++ dec_nat i) with
                              | Some x => x
                              | None => zero
                              end) (seq 0 11)))]
             else []
         | None => []
         end
    /\ script w st
       = (([StSetPageConfig "Te 예측기" "wide"; StTitle "플라즈마 전자 온도 (Te) 예측"]
           ++ tr
           ++ [StSelectbox "사용할 모델 선택:" models; StDivider]
           ++ (PdReadCsv (DATA_FILE_PATH w) :: warned)
           ++ shown
           ++ [StSidebarHeader "API 서버 정보";
               StSidebarWrite "백엔드 API 주소: http://127.0.0.1:8000";
               StSidebarInfo
                 "FastAPI 서버가 먼저 실행 중이어야 합니다 (`uvicorn main:app --reload`)."])%list,
          st'', Ok tt).
Proof.
  intros Hget.
  destruct (load_wavelengths_run w (DATA_FILE_PATH w) st')
    as (warned & labels & Hload & Hwarned).
  assert (Hlen : forall l, labels = Some l -> List.length l = 11%nat).
  { intros l ->. apply (load_wavelengths_some_length w (DATA_FILE_PATH w) st').
    unfold result_of. rewrite Hload. reflexivity. }
  destruct (form_or_error_run w labels (nth (selectbox_index w) models VNone) st' Hlen)
    as (shown & st'' & Hform & Hg & Hr & Hf & Hp).
  exists warned, labels, shown, st''.
  repeat (split; [assumption |]).
  rewrite (script_trace w models labels tr _ st' st st' Hget Hload), Hform.
  reflexivity.
Qed.

(** X12. When the lister lets an exception out, the run ends with it right
    there: after the page title and the GET nothing is rendered (no select
    box, no field, no sidebar), the label file is not read and no POST is
    made. *)
Theorem script_aborts_with_lister (w : world) (st st' : store) (tr : list event)
    (e : exn) :
  get_available_models w st = (tr, st', Raise e) ->
  script w st
    = ([StSetPageConfig "Te 예측기" "wide"; StTitle "플라즈마 전자 온도 (Te) 예측";
        HttpGet (API_BASE_URL ++ "/models")], st, Raise e)
  /\ isinstance e RequestException = false.
Proof.
  intros Hget.
  rewrite (script_lister_raises w st st' tr e Hget).
  destruct (get_available_models_try_run w st) as (r & Htry & _).
  unfold get_available_models, try_except in Hget. rewrite Htry in Hget.
  destruct r as [models | e0]; [discriminate Hget |].
  destruct (isinstance e0 RequestException) eqn:Hcls; simpl in Hget;
    [discriminate Hget |].
  injection Hget as <- <- <-. split; [reflexivity | exact Hcls].
Qed.

(** X13. When the lister returns, the run ends normally whatever the
    labels, the click and the server do: right after the lister's calls come
    the select box with the listed models and the divider, and the three
    sidebar elements close the page. *)
Theorem script_completes (w : world) (st st' : store) (tr : list event)
    (models : list value) :
  get_available_models w st = (tr, st', Ok models) ->
  result_of (script w) st = Ok tt
  /\ exists shown,
       trace_of (script w) st
         = ([StSetPageConfig "Te 예측기" "wide"; StTitle "플라즈마 전자 온도 (Te) 예측"]
            ++ tr
            ++ [StSelectbox "사용할 모델 선택:" models; StDivider]
            ++ shown
            ++ [StSidebarHeader "API 서버 정보";
                StSidebarWrite "백엔드 API 주소: http://127.0.0.1:8000";
                StSidebarInfo
                  "FastAPI 서버가 먼저 실행 중이어야 합니다 (`uvicorn main:app --reload`)."])%list.
Proof.
  intros Hget.
  destruct (script_lister_returns w st st' tr models Hget)
    as (warned & labels & shown & st'' & _ & _ & _ & _ & _ & _ & _ & Hrun).
  unfold result_of, trace_of. rewrite Hrun. cbn [fst snd].
  split; [reflexivity |].
  exists ((PdReadCsv (DATA_FILE_PATH w) :: warned) ++ shown)%list.
  rewrite <- !app_assoc. reflexivity.
Qed.

(** X14. A run makes exactly one GET, to [/models], whatever happens. *)
Theorem script_one_get (w : world) (st : store) :
  gets (trace_of (script w) st) = [API_BASE_URL ++ "/models"].
Proof.
  destruct (get_available_models_run w st) as (shown0 & r & Hget & Hshown0 & _).
  destruct (messages_silent shown0 Hshown0) as (_ & Hg0 & _ & _).
  unfold trace_of. destruct r as [models | e].
  - destruct (script_lister_returns w st st _ models Hget)
      as (warned & labels & shown & st'' & Hwarned & _ & _ & Hg & _ & _ & _ & Hrun).
    destruct (messages_silent warned Hwarned) as (_ & Hgw & _ & _).
    rewrite Hrun. cbn [fst]. rewrite !gets_app. cbn [gets flat_map app].
    fold (gets shown0). fold (gets warned). rewrite Hg0, Hgw, Hg. reflexivity.
  - rewrite (script_lister_raises w st st _ e Hget). cbn [fst gets flat_map app].
    fold (gets shown0). rewrite Hg0. reflexivity.
Qed.

(** X15. A run makes at most one POST, and none when the button is not
    clicked. *)
Theorem script_posts_at_most_once (w : world) (st : store) :
  (List.length (posts (trace_of (script w) st)) <= 1)%nat
  /\ (button_clicked w = false -> posts (trace_of (script w) st) = []).
Proof.
  destruct (get_available_models_run w st) as (shown0 & r & Hget & Hshown0 & _).
  destruct (messages_silent shown0 Hshown0) as (Hp0 & _ & _ & _).
  unfold trace_of. destruct r as [models | e].
  - destruct (script_lister_returns w st st _ models Hget)
      as (warned & labels & shown & st'' & Hwarned & _ & _ & _ & _ & _ & Hp & Hrun).
    destruct (messages_silent warned Hwarned) as (Hpw & _ & _ & _).
    rewrite Hrun. cbn [fst]. rewrite !posts_app. cbn [posts flat_map app].
    fold (posts shown0). fold (posts warned). rewrite Hp0, Hpw, Hp.
    destruct labels as [l |]; [| split; [simpl; lia | reflexivity]].
    destruct (button_clicked w); split; simpl; try lia; try reflexivity;
      try discriminate.
  - rewrite (script_lister_raises w st st _ e Hget). cbn [fst posts flat_map app].
    fold (posts shown0). rewrite Hp0. split; [simpl; lia | reflexivity].
Qed.

(** The fields of a run, from what the lister and the loader did. *)
Lemma script_shows_fields (w : world) (st st' : store) (tr tr' : list event)
    (models : list value) (labels : option (list value)) :
  get_available_models w st = (tr, st', Ok models) ->
  load_wavelengths w (DATA_FILE_PATH w) st' = (tr', st', Ok labels) ->
  fields (trace_of (script w) st)
    = match labels with
      | Some l => map (fun i => ((i mod 4)%nat, py_str (nth i l VNone),
                                 "intensity_" ++ dec_nat i)) (seq 0 11)
      | None => []
      end.
Proof.
  intros Hget Hlabels.
  destruct (script_lister_returns w st st' tr models Hget)
    as (warned & labels' & shown & st'' & Hwarned & Hload & _ & _ & _ & Hf & _ & Hrun).
  rewrite Hload in Hlabels. injection Hlabels as _ ->.
  destruct (get_available_models_run w st) as (shown0 & r & Hget' & Hshown0 & _).
  rewrite Hget in Hget'. injection Hget' as -> _ _.
  destruct (messages_silent shown0 Hshown0) as (_ & _ & _ & Hf0).
  destruct (messages_silent warned Hwarned) as (_ & _ & _ & Hfw).
  unfold trace_of. rewrite Hrun. cbn [fst]. rewrite !fields_app.
  cbn [fields flat_map app]. fold (fields shown0). fold (fields warned).
  rewrite Hf0, Hfw, Hf, app_nil_r. reflexivity.
Qed.

(** X16. When the lister returns, the page shows number fields exactly when
    the loader returned labels: then there are eleven, field [i] in column
    [i mod 4], labelled with the text of label [i] and keyed [intensity_i],
    whether or not the button is clicked. *)
Theorem script_fields (w : world) (st st' : store) (tr : list event)
    (models : list value) (labels : option (list value)) :
  get_available_models w st = (tr, st', Ok models) ->
  result_of (load_wavelengths w (DATA_FILE_PATH w)) st' = Ok labels ->
  fields (trace_of (script w) st)
    = match labels with
      | Some l => map (fun i => ((i mod 4)%nat, py_str (nth i l VNone),
                                 "intensity_" ++ dec_nat i)) (seq 0 11)
      | None => []
      end
  /\ List.length (fields (trace_of (script w) st))
     = match labels with Some _ => 11%nat | None => 0%nat end.
Proof.
  intros Hget Hlabels.
  destruct (load_wavelengths_run w (DATA_FILE_PATH w) st')
    as (warned & labels' & Hload & _).
  unfold result_of in Hlabels. rewrite Hload in Hlabels. injection Hlabels as ->.
  rewrite (script_shows_fields w st st' tr _ models labels Hget Hload).
  split; [reflexivity |]. destruct labels; reflexivity.
Qed.

(** X17. With the select box left at its first option and the button
    clicked, the request names the model "latest", whatever the server
    listed. *)
Theorem script_default_model_latest (w : world) (st st' : store) (tr : list event)
    (models labels : list value) :
  selectbox_index w = 0%nat ->
  button_clicked w = true ->
  get_available_models w st = (tr, st', Ok models) ->
  result_of (load_wavelengths w (DATA_FILE_PATH w)) st' = Ok (Some labels) ->
  posts (trace_of (script w) st)
    = [(API_BASE_URL ++ "/predict",
        VDict [("model_name", VStr "latest");
               ("intensities",
                VList (map VFloat
                         (map (fun i =>
                                 match number_input_state w ("intensity_" ++ dec_nat i) with
                                 | Some x => x
                                 | None => zero
                                 end) (seq 0 11))))])].
Proof.
  intros Hindex Hclick Hget Hlabels.
  destruct (script_lister_returns w st st' tr models Hget)
    as (warned & labels' & shown & st'' & Hwarned & Hload & _ & _ & _ & _ & Hp & Hrun).
  unfold result_of in Hlabels. rewrite Hload in Hlabels. injection Hlabels as ->.
  destruct (get_available_models_run w st) as (shown0 & r & Hget' & Hshown0 & Hhead).
  rewrite Hget in Hget'. injection Hget' as -> _ <-.
  destruct (Hhead models eq_refl) as (rest & ->).
  destruct (messages_silent shown0 Hshown0) as (Hp0 & _ & _ & _).
  destruct (messages_silent warned Hwarned) as (Hpw & _ & _ & _).
  unfold trace_of. rewrite Hrun. cbn [fst]. rewrite !posts_app.
  cbn [posts flat_map app]. fold (posts shown0). fold (posts warned).
  rewrite Hp0, Hpw, Hp, Hindex, Hclick. reflexivity.
Qed.

(** X18. A label file that cannot be read does not block the page: once the
    lister has returned, the eleven fields are shown under the placeholder
    labels, and a click sends the request. *)
Theorem script_unreadable_file_still_predicts (w : world) (st st' : store)
    (tr : list event) (models : list value) (e : exn) :
  read_csv w (DATA_FILE_PATH w) = ReadFailed e ->
  get_available_models w st = (tr, st', Ok models) ->
  fields (trace_of (script w) st)
    = map (fun i => ((i mod 4)%nat, "파장 " ++ dec_nat (i + 1), "intensity_" ++ dec_nat i))
        (seq 0 11)
  /\ (button_clicked w = true ->
      posts (trace_of (script w) st)
        = [(API_BASE_URL ++ "/predict",
            predict_payload (nth (selectbox_index w) models VNone)
              (map (fun i =>
                      match number_input_state w ("intensity_" ++ dec_nat i) with
                      | Some x => x
                      | None => zero
                      end) (seq 0 11)))]).
Proof.
  intros Hcsv Hget.
  destruct (script_lister_returns w st st' tr models Hget)
    as (warned & labels & shown & st'' & Hwarned & Hload & _ & _ & _ & Hf & Hp & Hrun).
  rewrite (load_wavelengths_read_failed w (DATA_FILE_PATH w) st' e Hcsv) in Hload.
  injection Hload as _ <-.
  destruct (get_available_models_run w st) as (shown0 & r & Hget' & Hshown0 & _).
  rewrite Hget in Hget'. injection Hget' as -> _ _.
  destruct (messages_silent shown0 Hshown0) as (Hp0 & _ & _ & Hf0).
  destruct (messages_silent warned Hwarned) as (Hpw & _ & _ & Hfw).
  unfold trace_of. rewrite Hrun. cbn [fst]. rewrite !fields_app, !posts_app.
  cbn [fields posts flat_map app].
  fold (fields shown0). fold (fields warned). fold (posts shown0). fold (posts warned).
  rewrite Hf0, Hfw, Hf, Hp0, Hpw, Hp, app_nil_r. split; [reflexivity |].
  intros ->. reflexivity.
Qed.

(** ** From the header of the file to the labels on the page *)

(** X19. A header of eleven names, one of which at least does not read as a
    float: once the lister has returned, the eleven fields carry those names,
    unchanged and in order. *)
Theorem script_text_labels (w : world) (st st' : store) (tr : list event)
    (models : list value) (first : value) (names : list string) :
  get_available_models w st = (tr, st', Ok models) ->
  read_csv w (DATA_FILE_PATH w) = Frame (first :: map VStr names) ->
  List.length names = 11%nat ->
  Exists (fun name => float_of_string name = None) names ->
  fields (trace_of (script w) st)
    = map (fun i => ((i mod 4)%nat, nth i names "", "intensity_" ++ dec_nat i)) (seq 0 11).
Proof.
  intros Hget Hcsv Hlen Hbad.
  assert (Hload : load_wavelengths w (DATA_FILE_PATH w) st'
                  = ([PdReadCsv (DATA_FILE_PATH w)], st', Ok (Some (map VStr names)))).
  { destruct (comprehension_pure py_float (map VStr names) st') as (r & Hr & Hok & Hno).
    unfold load_wavelengths, try_except.
    rewrite (load_wavelengths_try_frame w _ _ st' r Hcsv Hr). cbn [tl].
    destruct r as [xs | e].
    - exfalso. specialize (Hok xs eq_refl). clear Hr Hno Hlen Hcsv.
      revert xs Hok. induction Hbad as [name names Hname | name names _ IH];
        intros xs Hok; inversion Hok as [| c x cs xs' Hc Hrest]; subst.
      + simpl in Hc. rewrite Hname in Hc. discriminate Hc.
      + exact (IH xs' Hrest).
    - destruct (Hno e eq_refl) as (c & Hin & Hc).
      apply in_map_iff in Hin. destruct Hin as (name & <- & _).
      rewrite (cell_float_raise (VStr name) e eq_refl Hc), length_map, Hlen.
      reflexivity. }
  rewrite (script_shows_fields w st st' tr _ models (Some (map VStr names)) Hget Hload).
  do 12 (destruct names as [| ? names]; try discriminate Hlen). reflexivity.
Qed.

(** X20. A header whose eleven cells all convert with [float]: the fields
    are labelled with the text of the floats, not with the tokens of the
    file (an int cell [404] is shown as Python prints [404.0]). *)
Theorem script_numeric_labels (w : world) (st st' : store) (tr : list event)
    (models : list value) (first : value) (cells : list value) (xs : list pyfloat) :
  get_available_models w st = (tr, st', Ok models) ->
  read_csv w (DATA_FILE_PATH w) = Frame (first :: cells) ->
  List.length cells = 11%nat ->
  Forall2 (fun c x => py_float c = Ok x) cells xs ->
  fields (trace_of (script w) st)
    = map (fun i => ((i mod 4)%nat, float_repr (nth i xs zero), "intensity_" ++ dec_nat i))
        (seq 0 11).
Proof.
  intros Hget Hcsv Hlen Hxs.
  assert (Hlen' : List.length xs = 11%nat)
    by (rewrite <- (Forall2_length_eq _ _ _ Hxs); exact Hlen).
  assert (Hload : load_wavelengths w (DATA_FILE_PATH w) st'
                  = ([PdReadCsv (DATA_FILE_PATH w)], st', Ok (Some (map VFloat xs)))).
  { unfold load_wavelengths, try_except.
    rewrite (load_wavelengths_try_frame w _ _ st' (Ok xs) Hcsv
               (comprehension_all_ok py_float cells xs st' Hxs)).
    rewrite Hlen'. reflexivity. }
  rewrite (script_shows_fields w st st' tr _ models (Some (map VFloat xs)) Hget Hload).
  do 12 (destruct xs as [| ? xs]; try discriminate Hlen'). reflexivity.
Qed.

End Coverage.

(** * More runs on the sample inputs *)

Lemma predict_missing_temperature_run :
  predict (py := Sample.interp)
    (Cases.answering (Inputs.respond 200 "OK" Inputs.predict_url (Ok Cases.no_temperature)))
    (VStr "latest") (repeat zero 11) empty_store
  = ([StInfo "API 서버에 예측 요청 중...";
      HttpPost "http://127.0.0.1:8000/predict"
        (predict_payload (VStr "latest") (repeat zero 11));
      StError "예측 처리 중 예상치 못한 오류 발생: 'predicted_te'"],
     {| response := Some (mk_Response 200 "OK" Inputs.predict_url
                            (Ok Cases.no_temperature)) |},
     Ok tt).
Proof.
  apply (predict_missing_temperature (py := Sample.interp)
           (Cases.answering (Inputs.respond 200 "OK" Inputs.predict_url (Ok Cases.no_temperature))) (VStr "latest")
           (repeat zero 11) empty_store
           (mk_Response 200 "OK" Inputs.predict_url (Ok Cases.no_temperature))
           [("model_used", VStr "a.model")] eq_refl ltac:(simpl; lia) eq_refl eq_refl).
Defined.

Lemma predict_missing_model_run :
  predict (py := Sample.interp)
    (Cases.answering (Inputs.respond 200 "OK" Inputs.predict_url (Ok Cases.no_model)))
    (VStr "latest") (repeat zero 11) empty_store
  = ([StInfo "API 서버에 예측 요청 중...";
      HttpPost "http://127.0.0.1:8000/predict"
        (predict_payload (VStr "latest") (repeat zero 11));
      StSuccess "예측된 전자 온도 (Te): 3.5284 (eV?)";
      StError "예측 처리 중 예상치 못한 오류 발생: 'model_used'"],
     {| response := Some (mk_Response 200 "OK" Inputs.predict_url (Ok Cases.no_model)) |},
     Ok tt).
Proof.
  apply (predict_missing_model (py := Sample.interp)
           (Cases.answering (Inputs.respond 200 "OK" Inputs.predict_url (Ok Cases.no_model))) (VStr "latest")
           (repeat zero 11) empty_store
           (mk_Response 200 "OK" Inputs.predict_url (Ok Cases.no_model))
           [("predicted_te", VFloat (Inputs.float_of "3.52839"))]
           (Inputs.float_of "3.52839") eq_refl ltac:(simpl; lia) eq_refl eq_refl eq_refl).
Defined.

Lemma predict_temperature_not_a_number_run :
  predict (py := Sample.interp)
    (Cases.answering (Inputs.respond 200 "OK" Inputs.predict_url (Ok Cases.text_temperature)))
    (VStr "latest") (repeat zero 11) empty_store
  = ([StInfo "API 서버에 예측 요청 중...";
      HttpPost "http://127.0.0.1:8000/predict"
        (predict_payload (VStr "latest") (repeat zero 11));
      StError "예측 처리 중 예상치 못한 오류 발생: Unknown format code 'f' for object of type 'str'"],
     {| response := Some (mk_Response 200 "OK" Inputs.predict_url
                            (Ok Cases.text_temperature)) |},
     Ok tt).
Proof.
  apply (proj1 (predict_temperature_not_a_number (py := Sample.interp)
           (Cases.answering (Inputs.respond 200 "OK" Inputs.predict_url (Ok Cases.text_temperature))) (VStr "latest")
           (repeat zero 11) empty_store
           (mk_Response 200 "OK" Inputs.predict_url (Ok Cases.text_temperature))
           [("predicted_te", VStr "3.5"); ("model_used", VStr "a.model")]
           (VStr "3.5") eq_refl ltac:(simpl; lia) eq_refl eq_refl
           (or_introl (ex_intro _ "3.5" eq_refl)))).
Defined.

Lemma predict_undecodable_answer_run :
  predict (py := Sample.interp) (Cases.answering (Cases.html_page Inputs.predict_url))
    (VStr "latest") (repeat zero 11) empty_store
  = ([StInfo "API 서버에 예측 요청 중...";
      HttpPost "http://127.0.0.1:8000/predict"
        (predict_payload (VStr "latest") (repeat zero 11));
      StError "API 호출 실패: Expecting value: line 1 column 1 (char 0)"],
     {| response := Some (mk_Response 200 "OK" Inputs.predict_url
                            (Raise Inputs.not_json)) |},
     Ok tt).
Proof.
  apply (predict_undecodable_answer (py := Sample.interp)
           (Cases.answering (Cases.html_page Inputs.predict_url)) (VStr "latest")
           (repeat zero 11) empty_store
           (mk_Response 200 "OK" Inputs.predict_url (Raise Inputs.not_json))
           Inputs.not_json eq_refl ltac:(simpl; lia) eq_refl).
Defined.

Lemma predict_error_without_detail_run :
  exists text,
    raise_for_status (mk_Response 422 "Unprocessable Entity" Inputs.predict_url
                        (Ok Cases.no_detail))
      = Raise (mk_exn HTTPError text)
    /\ predict (py := Sample.interp) (Cases.answering Cases.unprocessable)
         (VStr "latest") (repeat zero 11) empty_store
       = ([StInfo "API 서버에 예측 요청 중...";
           HttpPost "http://127.0.0.1:8000/predict"
             (predict_payload (VStr "latest") (repeat zero 11));
           StError ("API 호출 실패: " ++ text);
           StError "서버 응답: 상세 정보 없음"],
          {| response := Some (mk_Response 422 "Unprocessable Entity" Inputs.predict_url
                                 (Ok Cases.no_detail)) |},
          Ok tt).
Proof.
  apply (predict_error_without_detail (py := Sample.interp)
           (Cases.answering Cases.unprocessable) (VStr "latest")
           (repeat zero 11) empty_store
           (mk_Response 422 "Unprocessable Entity" Inputs.predict_url (Ok Cases.no_detail))
           [("error", VStr "unprocessable")] eq_refl ltac:(simpl; lia) eq_refl eq_refl).
Defined.

Lemma get_available_models_unreachable_run :
  get_available_models (py := Sample.interp) Inputs.offline empty_store
  = ([HttpGet "http://127.0.0.1:8000/models";
      StError "API 서버에서 모델 목록을 가져오는 데 실패했습니다: HTTPConnectionPool(host='127.0.0.1', port=8000): Max retries exceeded"],
     empty_store, Ok [VStr "latest"]).
Proof.
  apply (get_available_models_unreachable (py := Sample.interp) Inputs.offline
           empty_store Inputs.connection_refused eq_refl eq_refl).
Defined.

Lemma get_available_models_http_error_run :
  exists text,
    raise_for_status (mk_Response 503 "Service Unavailable" Inputs.models_url
                        (Raise Inputs.not_json))
      = Raise (mk_exn HTTPError text)
    /\ get_available_models (py := Sample.interp) (Cases.listing Cases.unavailable)
         empty_store
       = ([HttpGet "http://127.0.0.1:8000/models";
           StError ("API 서버에서 모델 목록을 가져오는 데 실패했습니다: " ++ text)],
          empty_store, Ok [VStr "latest"]).
Proof.
  apply (get_available_models_http_error (py := Sample.interp)
           (Cases.listing Cases.unavailable) empty_store
           (mk_Response 503 "Service Unavailable" Inputs.models_url (Raise Inputs.not_json))
           eq_refl ltac:(simpl; lia)).
Defined.

Lemma get_available_models_undecodable_run :
  get_available_models (py := Sample.interp)
    (Cases.listing (Cases.html_page Inputs.models_url)) empty_store
  = ([HttpGet "http://127.0.0.1:8000/models";
      StError "API 서버에서 모델 목록을 가져오는 데 실패했습니다: Expecting value: line 1 column 1 (char 0)"],
     empty_store, Ok [VStr "latest"]).
Proof.
  apply (get_available_models_undecodable (py := Sample.interp)
           (Cases.listing (Cases.html_page Inputs.models_url)) empty_store
           (mk_Response 200 "OK" Inputs.models_url (Raise Inputs.not_json))
           Inputs.not_json eq_refl ltac:(simpl; lia) eq_refl).
Defined.

Lemma script_aborts_with_lister_run :
  script (py := Sample.interp) Inputs.nameless empty_store
  = ([StSetPageConfig "Te 예측기" "wide"; StTitle "플라즈마 전자 온도 (Te) 예측";
      HttpGet "http://127.0.0.1:8000/models"],
     empty_store, Raise (mk_exn KeyError "'name'")).
Proof.
  apply (proj1 (script_aborts_with_lister (py := Sample.interp) Inputs.nameless
                  empty_store empty_store [HttpGet Inputs.models_url]
                  (mk_exn KeyError "'name'") eq_refl)).
Defined.

Lemma script_completes_run :
  result_of (script (py := Sample.interp) Inputs.healthy) empty_store = Ok tt.
Proof.
  apply (proj1 (script_completes (py := Sample.interp) Inputs.healthy empty_store
                  empty_store Cases.asked Cases.listed eq_refl)).
Defined.

Lemma script_fields_run_idle :
  fields (trace_of (script (py := Sample.interp) Cases.idle) empty_store)
  = [(0, "388.9", "intensity_0"); (1, "396.5", "intensity_1");
     (2, "402.6", "intensity_2"); (3, "447.1", "intensity_3");
     (0, "471.3", "intensity_4"); (1, "492.2", "intensity_5");
     (2, "501.6", "intensity_6"); (3, "587.6", "intensity_7");
     (0, "667.8", "intensity_8"); (1, "706.5", "intensity_9");
     (2, "777.4", "intensity_10")]%nat.
Proof.
  apply (proj1 (script_fields (py := Sample.interp) Cases.idle empty_store empty_store
                  Cases.asked Cases.listed (Some (map VFloat Inputs.wavelengths))
                  eq_refl eq_refl)).
Defined.

Lemma script_default_model_latest_run :
  posts (trace_of (script (py := Sample.interp) Inputs.healthy) empty_store)
  = [("http://127.0.0.1:8000/predict",
      VDict [("model_name", VStr "latest");
             ("intensities", VList (repeat (VFloat zero) 11))])].
Proof.
  apply (script_default_model_latest (py := Sample.interp) Inputs.healthy empty_store
           empty_store Cases.asked Cases.listed (map VFloat Inputs.wavelengths)
           eq_refl eq_refl eq_refl eq_refl).
Defined.

Lemma script_unreadable_file_still_predicts_run :
  posts (trace_of (script (py := Sample.interp) Cases.unlabelled) empty_store)
  = [("http://127.0.0.1:8000/predict",
      VDict [("model_name", VStr "latest");
             ("intensities", VList (repeat (VFloat zero) 11))])].
Proof.
  apply (proj2 (script_unreadable_file_still_predicts (py := Sample.interp)
                  Cases.unlabelled empty_store empty_store Cases.asked Cases.listed
                  Inputs.no_such_file eq_refl eq_refl) eq_refl).
Defined.

Lemma script_text_labels_run :
  fields (trace_of (script (py := Sample.interp) Cases.named) empty_store)
  = [(0, "Ha", "intensity_0"); (1, "Hb", "intensity_1"); (2, "Hg", "intensity_2");
     (3, "Hd", "intensity_3"); (0, "He", "intensity_4"); (1, "OI", "intensity_5");
     (2, "NI", "intensity_6"); (3, "ArI", "intensity_7"); (0, "ArII", "intensity_8");
     (1, "CuI", "intensity_9"); (2, "FeI", "intensity_10")]%nat.
Proof.
  apply (script_text_labels (py := Sample.interp) Cases.named empty_store empty_store
           Cases.asked Cases.listed (VStr "Te") Cases.line_names eq_refl eq_refl eq_refl).
  apply Exists_cons_hd. reflexivity.
Defined.

Lemma script_numeric_labels_run :
  fields (trace_of (script (py := Sample.interp) Inputs.healthy) empty_store)
  = [(0, "388.9", "intensity_0"); (1, "396.5", "intensity_1");
     (2, "402.6", "intensity_2"); (3, "447.1", "intensity_3");
     (0, "471.3", "intensity_4"); (1, "492.2", "intensity_5");
     (2, "501.6", "intensity_6"); (3, "587.6", "intensity_7");
     (0, "667.8", "intensity_8"); (1, "706.5", "intensity_9");
     (2, "777.4", "intensity_10")]%nat.
Proof.
  apply (script_numeric_labels (py := Sample.interp) Inputs.healthy empty_store
           empty_store Cases.asked Cases.listed (VStr "Te") (tl Inputs.numeric_header)
           Inputs.wavelengths eq_refl eq_refl eq_refl).
  repeat (constructor; [vm_compute; reflexivity |]). constructor.
Defined.
